(** * UCP client: a shallow embedding of [ucp_client.py]

    The client of
    [skills/examples/ucp-merchant-agent/templates/basic-shopping-agent/ucp_client.py]
    is embedded as functions of a state-and-exception monad over the client
    object, the log of wire calls and the clock.  Python values that come out
    of [response.json()] or go into [json=] bodies are a tagged union; dicts
    are finite maps with string keys. *)

From stdpp Require Import gmap strings list fin_maps pretty.
From Stdlib Require Import ZArith Lia Ascii.

(** ** Python values

    The values the client handles are JSON shaped: [None], booleans, integers,
    strings, lists and dicts with string keys.  Numbers are integers: the
    client never computes with a number, it stores and compares them. *)

#[warnings="-register-all"]
Inductive value : Type :=
  | VNone
  | VBool (b : bool)
  | VInt (n : Z)
  | VStr (s : string)
  | VList (l : list value)
  | VDict (d : gmap string value).

(** Truth value of an object, as [if not x] and [x or y] test it. *)
Definition truthy (v : value) : bool :=
  match v with
  | VNone => false
  | VBool b => b
  | VInt n => negb (n =? 0)%Z
  | VStr s => negb (String.eqb s "")
  | VList l => match l with [] => false | _ :: _ => true end
  | VDict d => negb (Nat.eqb (size d) 0)
  end.

(** [x or y] *)
Definition py_or (x y : value) : value := if truthy x then x else y.

(** [v == s] for a string literal [s]: only a [str] equals a [str]. *)
Definition str_eq (v : value) (s : string) : bool :=
  match v with
  | VStr t => String.eqb t s
  | _ => false
  end.

Definition as_str (v : value) : option string :=
  match v with
  | VStr s => Some s
  | _ => None
  end.

(** [d.get(k, dflt)] on a dict. *)
Definition dict_get (d : gmap string value) (k : string) (dflt : value) : value :=
  default dflt (d !! k).

(** [x.get(k, dflt)] on any object: only a dict has [get], every other
    JSON value raises [AttributeError] ([None] here). *)
Definition py_get (x : value) (k : string) (dflt : value) : option value :=
  match x with
  | VDict d => Some (dict_get d k dflt)
  | _ => None
  end.

(** [x[k]] for a string key: [KeyError] on a dict without the key,
    [TypeError] on every other JSON value. *)
Definition py_getitem (x : value) (k : string) : option value :=
  match x with
  | VDict d => d !! k
  | _ => None
  end.

(** [for c in x]: a list yields its members, a string its characters, a dict
    its keys; [None], booleans and numbers raise [TypeError].  (A dict yields
    its keys in insertion order, which a finite map does not keep; every user
    below fails on a key, whichever comes first.) *)
Definition py_iter (x : value) : option (list value) :=
  match x with
  | VList l => Some l
  | VStr s => Some ((λ a, VStr (String a "")) <$> String.list_ascii_of_string s)
  | VDict d => Some (VStr <$> (map_to_list d).*1)
  | _ => None
  end.

(** [hash(x)] succeeds: lists and dicts are unhashable. *)
Definition hashable (x : value) : bool :=
  match x with
  | VList _ | VDict _ => false
  | _ => true
  end.

(** [s.rstrip('/')] *)
Fixpoint rstrip_slash (s : string) : string :=
  match s with
  | EmptyString => EmptyString
  | String a s' =>
      let r := rstrip_slash s' in
      if Ascii.eqb a "/"%char && String.eqb r "" then EmptyString else String a r
  end.

(** [x.rstrip('/')] on any object: [AttributeError] unless a [str]. *)
Definition py_rstrip_slash (x : value) : option string :=
  rstrip_slash <$> as_str x.

(** [str(n)] for an [int], as an f-string formats it. *)
Definition str_of_int (n : Z) : string := pretty n.

(** ** Exceptions *)

(** The exceptions the client raises.  [UCPError_] holds the three fields
    [UCPError.__init__] sets; the two subclasses hold their own fields, their
    [code] and [details] are those their [__init__] hands to the base class
    ([exn_code], [exn_details]).  [PythonError] stands for any exception that
    is not a [UCPError]: [AttributeError], [TypeError], [KeyError],
    [ValueError], [JSONDecodeError]. *)
Inductive exn : Type :=
  | UCPError_ (code message details : value)
  | VersionError (agent_version : string) (required_version : value)
  | CapabilityError (capability : value)
  | PythonError.

(** [UCPError(code, message, details)]: [self.details = details or {}]. *)
Definition UCPError (code message : value) (details : option value) : exn :=
  UCPError_ code message (py_or (default VNone details) (VDict ∅)).

Definition exn_code (e : exn) : option value :=
  match e with
  | UCPError_ c _ _ => Some c
  | VersionError _ _ => Some (VStr "version_mismatch")
  | CapabilityError _ => Some (VStr "capability_not_supported")
  | PythonError => None
  end.

Definition exn_details (e : exn) : option value :=
  match e with
  | UCPError_ _ _ d => Some d
  | VersionError a r =>
      Some (py_or (VDict (<["agent_version" := VStr a]> (<["required_version" := r]> ∅)))
                  (VDict ∅))
  | CapabilityError c => Some (py_or (VDict (<["capability" := c]> ∅)) (VDict ∅))
  | PythonError => None
  end.

(** ** Data classes

    The fields filled from a parsed response hold whatever value the response
    has there: the annotations of the dataclasses are not enforced. *)

Module Capability.
Record t : Type := mk { name : value; version : value }.
End Capability.

Module PaymentHandler.
Record t : Type := mk { id : value; type : value; config : value }.
End PaymentHandler.

Module MerchantProfile.
Record t : Type := mk {
  name : value;
  description : value;
  rest_endpoint : value;
  ucp_version : value;
  capabilities : list Capability.t;
  payment_handlers : list PaymentHandler.t;
  extensions : value
}.
End MerchantProfile.

Module LineItem.
Record t : Type := mk {
  sku : value;
  quantity : value;
  price_cents : value;
  name : value;
  description : value
}.
End LineItem.

Module CheckoutSession.
Record t (datetime : Type) : Type := mk {
  id : value;
  status : value;
  merchant_url : string;
  line_items : list LineItem.t;
  subtotal_cents : value;
  tax_cents : value;
  shipping_cents : value;
  discount_cents : value;
  total_cents : value;
  currency : value;
  payment_handlers : list PaymentHandler.t;
  created_at : datetime;
  expires_at : datetime;
  terms : value
}.
Arguments mk {datetime}.
Arguments id {datetime}.
Arguments status {datetime}.
Arguments merchant_url {datetime}.
Arguments line_items {datetime}.
Arguments currency {datetime}.
Arguments payment_handlers {datetime}.
End CheckoutSession.

Module Order.
Record t : Type := mk {
  id : value;
  status : value;
  confirmation_number : value;
  total_cents : value;
  currency : value
}.
End Order.

(** ** The wire *)

Inductive Method : Type := GET | POST | PATCH.

Record Request : Type := mkRequest {
  method : Method;
  url : string;
  req_headers : list (string * string);
  body : option value      (* the [json=] argument *)
}.

(** An [httpx.Response]: [json] is what [response.json()] returns, [None]
    when it raises. *)
Record Response : Type := mkResponse {
  status_code : Z;
  text : string;
  json : option value
}.

(** What a wire call gives: a response, or an [httpx.RequestError] with its
    text. *)
Inductive Outcome : Type :=
  | Responded (r : Response)
  | RequestError (e : string).

(** [response.raise_for_status()] returns on a 2xx status and raises
    [HTTPStatusError] on every other. *)
Definition is_success (r : Response) : bool :=
  (200 <=? status_code r)%Z && (status_code r <=? 299)%Z.

(** ** The client object and the world around it *)

(** The [httpx.AsyncClient] the client builds, by its default headers.  (The
    timeout, a float handed to httpx as it is, takes no part in what the
    client decides and is left out.) *)
Record AsyncClient : Type := mkAsyncClient {
  headers : list (string * string)
}.

Record UCPClient : Type := mkUCPClient {
  agent_profile_url : string;
  _http_client : option AsyncClient;
  _merchant_cache : gmap string MerchantProfile.t
}.

Definition UCP_VERSION : string := "2026-01-11".

(** [UCPClient(agent_profile_url)] *)
Definition UCPClient_init (agent_profile_url : string) : UCPClient :=
  {| agent_profile_url := agent_profile_url;
     _http_client := None;
     _merchant_cache := ∅ |}.

(** The state a method runs in: the client object, the wire calls issued so
    far (latest first) and the number of clock readings taken so far. *)
Record World : Type := mkWorld {
  self : UCPClient;
  sent : list Request;
  clock_reads : nat
}.

Definition World_init (agent_profile_url : string) : World :=
  {| self := UCPClient_init agent_profile_url; sent := []; clock_reads := 0 |}.

Definition set_http_client (c : option AsyncClient) (w : World) : World :=
  {| self := {| agent_profile_url := agent_profile_url (self w);
                _http_client := c;
                _merchant_cache := _merchant_cache (self w) |};
     sent := sent w;
     clock_reads := clock_reads w |}.

Definition set_merchant_cache (m : gmap string MerchantProfile.t) (w : World) : World :=
  {| self := {| agent_profile_url := agent_profile_url (self w);
                _http_client := _http_client (self w);
                _merchant_cache := m |};
     sent := sent w;
     clock_reads := clock_reads w |}.

(** ** The monad of the methods: state and exceptions *)

Inductive Result (A : Type) : Type :=
  | Ok (a : A)
  | Raise (e : exn).
Arguments Ok {A} a.
Arguments Raise {A} e.

Definition M (A : Type) : Type := World → Result A * World.

Definition ret {A} (a : A) : M A := λ w, (Ok a, w).

Definition raise {A} (e : exn) : M A := λ w, (Raise e, w).

Definition bind {A B} (m : M A) (k : A → M B) : M B :=
  λ w, match m w with
       | (Ok a, w') => k a w'
       | (Raise e, w') => (Raise e, w')
       end.

Notation "'let*' x ':=' c 'in' k" := (bind c (λ x, k))
  (at level 10, x pattern, c at level 200, k at level 200).

(** An operation that raises a Python exception where it has no value. *)
Definition lift {A} (o : option A) : M A :=
  match o with
  | Some a => ret a
  | None => raise PythonError
  end.

(** [[f(x) for x in xs]] *)
Fixpoint for_each {A B} (f : A → M B) (xs : list A) : M (list B) :=
  match xs with
  | [] => ret []
  | x :: xs' =>
      let* y := f x in
      let* ys := for_each f xs' in
      ret (y :: ys)
  end.

(** ** The methods of [UCPClient] *)

Section Client.

(** The world the client runs in: [datetime] with its ISO parser
    ([None] where [datetime.fromisoformat] raises), the text of
    [datetime.now().isoformat()] at each reading of the clock, and the
    transport, which answers a request given the requests before it. *)
Context {datetime : Type}.
Variable fromisoformat : value → option datetime.
Variable now_isoformat : nat → string.
Variable transport : list Request → Request → Outcome.

(** [list(s)] for a set [s] of strings: its members in the order the set
    iterates, which the hashes of the strings and the way the set was built
    decide; [xs] is the list the merchant's side of the intersection was
    built from.  ([list_lists_set] below says what a [list(s)] is.) *)
Variable list_of_set : list value → gset string → list string.

Definition datetime_now_isoformat : M string := λ w,
  (Ok (now_isoformat (clock_reads w)),
   {| self := self w; sent := sent w; clock_reads := S (clock_reads w) |}).

(** [await client.get(url)], [client.post(url, json=b)],
    [client.patch(url, json=b)]: the request goes out with the default
    headers of the client and is logged. *)
Definition log (q : Request) (w : World) : World :=
  {| self := self w; sent := q :: sent w; clock_reads := clock_reads w |}.

Definition send (client : AsyncClient) (m : Method) (u : string)
    (b : option value) : M Outcome := λ w,
  let q := {| method := m; url := u; req_headers := headers client; body := b |} in
  (Ok (transport (sent w) q), log q w).

(** [httpx.AsyncClient(timeout=..., headers={...})] *)
Definition new_client (agent_profile_url : string) : AsyncClient :=
  {| headers :=
       [("UCP-Agent",
         "profile=" +:+ String "034" agent_profile_url +:+ String "034" "");
        ("Content-Type", "application/json")] |}.

Definition _get_client : M AsyncClient := λ w,
  match _http_client (self w) with
  | Some c => (Ok c, w)
  | None =>
      let c := new_client (agent_profile_url (self w)) in
      (Ok c, set_http_client (Some c) w)
  end.

Definition close : M unit := λ w,
  match _http_client (self w) with
  | Some _ => (Ok (), set_http_client None w)
  | None => (Ok (), w)
  end.

(** The [try] block of [_handle_error_response]: [None] where it raises
    and the [except Exception] branch takes over. *)
Definition error_payload (response : Response) : option (value * value * value) :=
  data ← json response;
  error ← py_get data "error" (VDict ∅);
  code ← py_get error "code" (VStr "unknown_error");
  message ← py_get error "message" (VStr "Unknown error");
  details ← py_get error "details" (VDict ∅);
  Some (code, message, details).

(** [_handle_error_response] never returns: its value here is the
    exception it raises. *)
Definition _handle_error_response (response : Response) : exn :=
  let '(code, message, details) :=
    match error_payload response with
    | Some t => t
    | None =>
        (VStr ("http_" +:+ str_of_int (status_code response)),
         py_or (VStr (text response)) (VStr "Unknown error"),
         VDict ∅)
    end in
  if str_eq code "version_mismatch" then
    match py_get details "required_version" (VStr "unknown") with
    | Some required => VersionError UCP_VERSION required
    | None => PythonError
    end
  else if str_eq code "capability_not_supported" then
    match py_get details "capability" (VStr "unknown") with
    | Some capability => CapabilityError capability
    | None => PythonError
    end
  else UCPError code message (Some details).

Definition discover (merchant_url : string) : M MerchantProfile.t := λ w,
  match _merchant_cache (self w) !! merchant_url with
  | Some profile => ret profile w
  | None =>
      (let* client := _get_client in
       let well_known_url := rstrip_slash merchant_url +:+ "/.well-known/ucp" in
       let* out := send client GET well_known_url None in
       let* response :=
         match out with
         | Responded r =>
             if is_success r then ret r
             else raise (UCPError (VStr "discovery_failed")
                           (VStr ("Failed to discover merchant: "
                                  +:+ str_of_int (status_code r))) None)
         | RequestError e =>
             raise (UCPError (VStr "network_error")
                      (VStr ("Network error during discovery: " +:+ e)) None)
         end in
       let* data := lift (json response) in
       let* ucp_data := lift (py_get data "ucp" (VDict ∅)) in
       let* merchant_data := lift (py_get data "merchant" (VDict ∅)) in
       let* name := lift (py_get merchant_data "name" (VStr "Unknown")) in
       let* description := lift (py_get merchant_data "description" (VStr "")) in
       let* rest_endpoint :=
         lift (py_get merchant_data "rest_endpoint" (VStr merchant_url)) in
       let* ucp_version := lift (py_get ucp_data "version" (VStr "")) in
       let* cs := lift (py_get ucp_data "capabilities" (VList []) ≫= py_iter) in
       let* capabilities :=
         for_each (λ c,
           let* n := lift (py_getitem c "name") in
           let* v := lift (py_get c "version" (VStr "")) in
           ret (Capability.mk n v)) cs in
       let* hs := lift (py_get ucp_data "payment_handlers" (VList []) ≫= py_iter) in
       let* payment_handlers :=
         for_each (λ h,
           let* i := lift (py_get h "id" (VStr "")) in
           let* t := lift (py_get h "type" (VStr "")) in
           let* c := lift (py_get h "config" (VDict ∅)) in
           ret (PaymentHandler.mk i t c)) hs in
       let* extensions := lift (py_get ucp_data "extensions" (VList [])) in
       let profile :=
         MerchantProfile.mk name description rest_endpoint ucp_version
           capabilities payment_handlers extensions in
       let* _ := (λ w', (Ok (), set_merchant_cache
                                  (<[merchant_url := profile]> (_merchant_cache (self w')))
                                  w')) in
       ret profile) w
  end.

(** The agent's own side of the negotiation, fixed in [negotiate]. *)
Definition agent_capabilities : gset string := {["dev.ucp.shopping.checkout"]}.
Definition agent_handlers : gset string := {["com.google.pay"; "dev.ucp.ap2"]}.

(** A set comprehension over [xs], as far as its intersection with a set
    of strings goes: the comprehension raises [TypeError] on an unhashable
    member, and a member that is no [str] equals none of the strings. *)
Definition str_set (xs : list value) : option (gset string) :=
  if forallb hashable xs then Some (list_to_set (omap as_str xs)) else None.

Definition negotiate (merchant_profile : MerchantProfile.t) : M value :=
  let cap_names := Capability.name <$> MerchantProfile.capabilities merchant_profile in
  let handler_types :=
    PaymentHandler.type <$> MerchantProfile.payment_handlers merchant_profile in
  let* merchant_caps := lift (str_set cap_names) in
  let* merchant_handlers := lift (str_set handler_types) in
  ret (VDict (<["capabilities" :=
                  VList (VStr <$> list_of_set cap_names
                                    (agent_capabilities ∩ merchant_caps))]>
             (<["payment_handlers" :=
                  VList (VStr <$> list_of_set handler_types
                                    (agent_handlers ∩ merchant_handlers))]> ∅))).

Definition _parse_checkout_session (data : value) (merchant_url : string)
    (payment_handlers : list PaymentHandler.t) : M (CheckoutSession.t datetime) :=
  let* id := lift (py_get data "id" (VStr "")) in
  let* status := lift (py_get data "status" (VStr "incomplete")) in
  let* items := lift (py_get data "line_items" (VList []) ≫= py_iter) in
  let* line_items :=
    for_each (λ item,
      let* sku := lift (py_get item "sku" (VStr "")) in
      let* quantity := lift (py_get item "quantity" (VInt 0)) in
      let* price_cents := lift (py_get item "price_cents" VNone) in
      let* name := lift (py_get item "name" VNone) in
      let* description := lift (py_get item "description" VNone) in
      ret (LineItem.mk sku quantity price_cents name description)) items in
  let* subtotal_cents := lift (py_get data "subtotal_cents" (VInt 0)) in
  let* tax_cents := lift (py_get data "tax_cents" (VInt 0)) in
  let* shipping_cents := lift (py_get data "shipping_cents" (VInt 0)) in
  let* discount_cents := lift (py_get data "discount_cents" (VInt 0)) in
  let* total_cents := lift (py_get data "total_cents" (VInt 0)) in
  let* currency := lift (py_get data "currency" (VStr "USD")) in
  let* now1 := datetime_now_isoformat in
  let* created_at := lift (py_get data "created_at" (VStr now1) ≫= fromisoformat) in
  let* now2 := datetime_now_isoformat in
  let* expires_at := lift (py_get data "expires_at" (VStr now2) ≫= fromisoformat) in
  let* terms := lift (py_get data "terms" (VDict ∅)) in
  ret (CheckoutSession.mk id status merchant_url line_items subtotal_cents
         tax_cents shipping_cents discount_cents total_cents currency
         payment_handlers created_at expires_at terms).

(** [Order(id=data.get(...), ...)], the same in [complete_checkout] and
    [get_order]. *)
Definition parse_order (data : value) : M Order.t :=
  let* id := lift (py_get data "id" (VStr "")) in
  let* status := lift (py_get data "status" (VStr "unknown")) in
  let* confirmation_number := lift (py_get data "confirmation_number" VNone) in
  let* total_cents := lift (py_get data "total_cents" (VInt 0)) in
  let* currency := lift (py_get data "currency" (VStr "USD")) in
  ret (Order.mk id status confirmation_number total_cents currency).

(** [**kwargs] is a dict of the keyword arguments that name no parameter
    of the method. *)
Definition create_checkout (merchant_url : string) (line_items : value)
    (kwargs : gmap string value) : M (CheckoutSession.t datetime) :=
  let* merchant := discover merchant_url in
  if negb (existsb (λ c, str_eq (Capability.name c) "dev.ucp.shopping.checkout")
             (MerchantProfile.capabilities merchant))
  then raise (CapabilityError (VStr "dev.ucp.shopping.checkout"))
  else
    let* client := _get_client in
    let payload := VDict (kwargs ∪ {["line_items" := line_items]}) in
    let* base := lift (py_rstrip_slash (MerchantProfile.rest_endpoint merchant)) in
    let endpoint := base +:+ "/checkout" in
    let* out := send client POST endpoint (Some payload) in
    let* response :=
      match out with
      | Responded r =>
          if is_success r then ret r else raise (_handle_error_response r)
      | RequestError e =>
          raise (UCPError (VStr "network_error") (VStr ("Network error: " +:+ e)) None)
      end in
    let* data := lift (json response) in
    _parse_checkout_session data merchant_url
      (MerchantProfile.payment_handlers merchant).

(** [self.discover(x)] for what [kwargs.pop] gave: on a truthy [x] that is
    no [str] the cache test or [rstrip] raises before any wire call. *)
Definition discover_value (x : value) : M (string * MerchantProfile.t) :=
  match x with
  | VStr merchant_url =>
      let* merchant := discover merchant_url in ret (merchant_url, merchant)
  | _ => raise PythonError
  end.

Definition update_checkout (session_id : string) (kwargs : gmap string value)
    : M (CheckoutSession.t datetime) :=
  let* client := _get_client in
  let merchant_url := default VNone (kwargs !! "merchant_url") in
  let kwargs := delete "merchant_url" kwargs in
  if negb (truthy merchant_url)
  then raise (UCPError (VStr "invalid_request")
                (VStr "merchant_url required for update") None)
  else
    let* (merchant_url, merchant) := discover_value merchant_url in
    let* base := lift (py_rstrip_slash (MerchantProfile.rest_endpoint merchant)) in
    let endpoint := base +:+ "/checkout/" +:+ session_id in
    let* out := send client PATCH endpoint (Some (VDict kwargs)) in
    let* response :=
      match out with
      | Responded r =>
          if is_success r then ret r else raise (_handle_error_response r)
      | RequestError e =>
          raise (UCPError (VStr "network_error") (VStr ("Network error: " +:+ e)) None)
      end in
    let* data := lift (json response) in
    _parse_checkout_session data merchant_url
      (MerchantProfile.payment_handlers merchant).

Definition complete_checkout (session_id : string) (payment_data : value)
    (kwargs : gmap string value) : M Order.t :=
  let* client := _get_client in
  let merchant_url := default VNone (kwargs !! "merchant_url") in
  let kwargs := delete "merchant_url" kwargs in
  if negb (truthy merchant_url)
  then raise (UCPError (VStr "invalid_request")
                (VStr "merchant_url required for completion") None)
  else
    let* (merchant_url, merchant) := discover_value merchant_url in
    let* base := lift (py_rstrip_slash (MerchantProfile.rest_endpoint merchant)) in
    let endpoint := base +:+ "/checkout/" +:+ session_id +:+ "/complete" in
    let payload := VDict (kwargs ∪ {["payment" := payment_data]}) in
    let* out := send client POST endpoint (Some payload) in
    let* response :=
      match out with
      | Responded r =>
          if is_success r then ret r else raise (_handle_error_response r)
      | RequestError e =>
          raise (UCPError (VStr "network_error") (VStr ("Network error: " +:+ e)) None)
      end in
    let* data := lift (json response) in
    parse_order data.

Definition get_order (order_id : string) (merchant_url : string) : M Order.t :=
  let* client := _get_client in
  let* merchant := discover merchant_url in
  let* base := lift (py_rstrip_slash (MerchantProfile.rest_endpoint merchant)) in
  let endpoint := base +:+ "/orders/" +:+ order_id in
  let* out := send client GET endpoint None in
  let* response :=
    match out with
    | Responded r =>
        if is_success r then ret r else raise (_handle_error_response r)
    | RequestError e =>
        raise (UCPError (VStr "network_error") (VStr ("Network error: " +:+ e)) None)
    end in
  let* data := lift (json response) in
  parse_order data.

End Client.

(** What every [list(s)] is: the members of [s], each once, in some order. *)
Definition list_lists_set (list_of_set : list value → gset string → list string)
    : Prop :=
  ∀ xs s, list_of_set xs s ≡ₚ elements s.

(** ** The parsers as functions

    The comprehensions and constructor calls of [discover] touch no state:
    they are the following functions, [None] where the code raises
    ([discover_miss] below proves it). *)

Definition parse_capability (c : value) : option Capability.t :=
  n ← py_getitem c "name";
  v ← py_get c "version" (VStr "");
  Some (Capability.mk n v).

Definition parse_handler (h : value) : option PaymentHandler.t :=
  i ← py_get h "id" (VStr "");
  t ← py_get h "type" (VStr "");
  c ← py_get h "config" (VDict ∅);
  Some (PaymentHandler.mk i t c).

Definition parse_profile (merchant_url : string) (data : value)
    : option MerchantProfile.t :=
  ucp_data ← py_get data "ucp" (VDict ∅);
  merchant_data ← py_get data "merchant" (VDict ∅);
  name ← py_get merchant_data "name" (VStr "Unknown");
  description ← py_get merchant_data "description" (VStr "");
  rest_endpoint ← py_get merchant_data "rest_endpoint" (VStr merchant_url);
  ucp_version ← py_get ucp_data "version" (VStr "");
  cs ← py_get ucp_data "capabilities" (VList []) ≫= py_iter;
  capabilities ← mapM parse_capability cs;
  hs ← py_get ucp_data "payment_handlers" (VList []) ≫= py_iter;
  payment_handlers ← mapM parse_handler hs;
  extensions ← py_get ucp_data "extensions" (VList []);
  Some (MerchantProfile.mk name description rest_endpoint ucp_version
          capabilities payment_handlers extensions).

Definition parse_line_item (item : value) : option LineItem.t :=
  sku ← py_get item "sku" (VStr "");
  quantity ← py_get item "quantity" (VInt 0);
  price_cents ← py_get item "price_cents" VNone;
  name ← py_get item "name" VNone;
  description ← py_get item "description" VNone;
  Some (LineItem.mk sku quantity price_cents name description).

(** The client a method works with, and the world once it has it. *)
Definition client_of (w : World) : AsyncClient :=
  default (new_client (agent_profile_url (self w))) (_http_client (self w)).

Definition with_client (w : World) : World := set_http_client (Some (client_of w)) w.

(** The request [discover] issues on a cache miss. *)
Definition well_known_request (merchant_url : string) (w : World) : Request :=
  {| method := GET;
     url := rstrip_slash merchant_url +:+ "/.well-known/ucp";
     req_headers := headers (client_of w);
     body := None |}.

(** A request a method issues with the client it got in world [w]. *)
Definition wire_request (m : Method) (u : string) (w : World) (b : option value)
    : Request :=
  {| method := m; url := u; req_headers := headers (client_of w); body := b |}.

(** The request of a discovery: a GET with no body. *)
Definition discovery_get (q : Request) : Prop := method q = GET ∧ body q = None.

(** A request of method [m] whose body is a dict that has no [merchant_url]
    and, under every other key, what the keyword arguments have there, or
    what [added] has where they have nothing. *)
Definition forwards (m : Method) (kwargs added : gmap string value) (q : Request)
    : Prop :=
  method q = m
  ∧ ∃ b, body q = Some (VDict b)
         ∧ b !! "merchant_url" = None
         ∧ ∀ k, k ≠ "merchant_url" → b !! k = (kwargs ∪ added) !! k.

(** The error taxonomy for one wire call: what a non-2xx response or a
    connection failure is mapped to, [None] for a 2xx response. *)
Definition wire_failure (o : Outcome) : option exn :=
  match o with
  | Responded r => if is_success r then None else Some (_handle_error_response r)
  | RequestError e =>
      Some (UCPError (VStr "network_error") (VStr ("Network error: " +:+ e)) None)
  end.

(** [quantity >= 1] for what a line item holds as its quantity. *)
Definition at_least_one (quantity : value) : bool :=
  match quantity with
  | VInt n => (1 <=? n)%Z
  | _ => false
  end.

Definition has_checkout (m : MerchantProfile.t) : bool :=
  existsb (λ c, str_eq (Capability.name c) "dev.ucp.shopping.checkout")
    (MerchantProfile.capabilities m).

(** ** Calls of the client, one after the other *)

(** A call of a public method of [UCPClient] with its arguments. *)
Inductive Call : Type :=
  | CallDiscover (merchant_url : string)
  | CallNegotiate (merchant_profile : MerchantProfile.t)
  | CallCreateCheckout (merchant_url : string) (line_items : value)
      (kwargs : gmap string value)
  | CallUpdateCheckout (session_id : string) (kwargs : gmap string value)
  | CallCompleteCheckout (session_id : string) (payment_data : value)
      (kwargs : gmap string value)
  | CallGetOrder (order_id merchant_url : string)
  | CallClose.

Section Calls.

Context {datetime : Type}.
Variable fromisoformat : value → option datetime.
Variable now_isoformat : nat → string.
Variable transport : list Request → Request → Outcome.
Variable list_of_set : list value → gset string → list string.

(** The world a call leaves, whether it returns or raises. *)
Definition run_call (c : Call) (w : World) : World :=
  match c with
  | CallDiscover u => snd (discover transport u w)
  | CallNegotiate mp => snd (negotiate list_of_set mp w)
  | CallCreateCheckout u items kwargs =>
      snd (create_checkout fromisoformat now_isoformat transport u items kwargs w)
  | CallUpdateCheckout sid kwargs =>
      snd (update_checkout fromisoformat now_isoformat transport sid kwargs w)
  | CallCompleteCheckout sid pd kwargs =>
      snd (complete_checkout transport sid pd kwargs w)
  | CallGetOrder oid u => snd (get_order transport oid u w)
  | CallClose => snd (close w)
  end.

Definition run_calls (cs : list Call) (w : World) : World :=
  foldl (λ w c, run_call c w) w cs.

End Calls.

(** The HTTP client of the world, if there is one, is the one
    [_get_client] builds. *)
Definition client_ok (w : World) : Prop :=
  client_of w = new_client (agent_profile_url (self w)).

(** ** How the world moves on *)

(** [w'] comes after [w] by at most [n] wire calls. *)
Definition evolves (n : nat) (w w' : World) : Prop :=
  agent_profile_url (self w') = agent_profile_url (self w)
  ∧ client_of w' = client_of w
  ∧ (∀ k p, _merchant_cache (self w) !! k = Some p →
            _merchant_cache (self w') !! k = Some p)
  ∧ ∃ new, sent w' = new ++ sent w
           ∧ length new ≤ n
           ∧ Forall (λ q, req_headers q = headers (client_of w)) new.

(** The discovery requests a lookup of [u] costs: none when [u] is cached. *)
Definition misses (u : string) (w : World) : nat :=
  match _merchant_cache (self w) !! u with Some _ => 0 | None => 1 end.

(** The wire calls a call can issue: one for discovery unless the merchant
    is cached, and one of its own. *)
Definition call_budget (c : Call) (w : World) : nat :=
  match c with
  | CallDiscover u => misses u w
  | CallNegotiate _ | CallClose => 0
  | CallCreateCheckout u _ _ | CallGetOrder _ u => misses u w + 1
  | CallUpdateCheckout _ kwargs | CallCompleteCheckout _ _ kwargs =>
      match kwargs !! "merchant_url" with
      | Some (VStr u) => misses u w + 1
      | _ => 0
      end
  end.

(** ** The handlers of [main.py]

    The request models are validated before a handler runs, so their fields
    have the declared types.  The response models validate what a handler
    hands them: they are parameters, [None] where pydantic raises.  The
    handlers run after [lifespan] has made the client. *)

Module Main.

Record LineItem : Type := mkLineItem {
  sku : string;
  quantity : Z;
  price_cents : option Z
}.

Record CreateCheckoutRequest : Type := mkCreateCheckoutRequest {
  merchant_url : string;
  line_items : list LineItem
}.

Record CompleteCheckoutRequest : Type := mkCompleteCheckoutRequest {
  session_id : string;
  payment_handler_id : string;
  payment_credential : gmap string value
}.

(** [{sku: item.sku, quantity: item.quantity, price_cents: item.price_cents}] *)
Definition line_item_dict (item : LineItem) : value :=
  VDict (<["sku" := VStr (sku item)]>
           (<["quantity" := VInt (quantity item)]>
              {["price_cents" := from_option VInt VNone (price_cents item)]})).

(** [{handler_id: ..., credential: ...}] *)
Definition payment_dict (request : CompleteCheckoutRequest) : value :=
  VDict (<["handler_id" := VStr (payment_handler_id request)]>
           {["credential" := VDict (payment_credential request)]}).

Section Handlers.

Context {datetime DiscoverResponse CheckoutResponse OrderResponse : Type}.
Variable fromisoformat : value → option datetime.
Variable now_isoformat : nat → string.
Variable transport : list Request → Request → Outcome.
Variable mkDiscoverResponse : value → list value → list value → option DiscoverResponse.
Variable mkCheckoutResponse : value → value → value → value → option CheckoutResponse.
Variable mkOrderResponse : value → value → value → option OrderResponse.

(** [lifespan], up to its [yield]. *)
Definition startup (AGENT_PROFILE_URL : string) : World := World_init AGENT_PROFILE_URL.

Definition discover_merchant (request_merchant_url : string) : M DiscoverResponse :=
  let* merchant := discover transport request_merchant_url in
  lift (mkDiscoverResponse (MerchantProfile.name merchant)
          (Capability.name <$> MerchantProfile.capabilities merchant)
          (PaymentHandler.type <$> MerchantProfile.payment_handlers merchant)).

Definition create_checkout (request : CreateCheckoutRequest) : M CheckoutResponse :=
  let* session :=
    create_checkout fromisoformat now_isoformat transport (merchant_url request)
      (VList (line_item_dict <$> line_items request)) ∅ in
  lift (mkCheckoutResponse (CheckoutSession.id session) (CheckoutSession.status session)
          (CheckoutSession.subtotal_cents _ session)
          (CheckoutSession.total_cents _ session)).

Definition complete_checkout (request : CompleteCheckoutRequest) : M OrderResponse :=
  let* order :=
    complete_checkout transport (session_id request) (payment_dict request) ∅ in
  lift (mkOrderResponse (Order.id order) (Order.status order)
          (Order.confirmation_number order)).

End Handlers.

End Main.

(** A run of [n] slashes. *)
Fixpoint slashes (n : nat) : string :=
  match n with
  | 0 => EmptyString
  | S n' => String "/" (slashes n')
  end.

(** The profile [discover] makes of a body with no [ucp] and no [merchant]
    member. *)
Definition default_profile (merchant_url : string) : MerchantProfile.t :=
  MerchantProfile.mk (VStr "Unknown") (VStr "") (VStr merchant_url) (VStr "")
    [] [] (VList []).

(** ** Sample data *)

Module Samples.

(** The body
    [{error: {code: version_mismatch, message: upgrade, details: {required_version: 2027-01-01}}}]
    under status 409. *)
Definition mismatch_details : gmap string value :=
  {["required_version" := VStr "2027-01-01"]}.
Definition mismatch_error : gmap string value :=
  <["code" := VStr "version_mismatch"]>
    (<["message" := VStr "upgrade"]> {["details" := VDict mismatch_details]}).
Definition mismatch_data : gmap string value := {["error" := VDict mismatch_error]}.
Definition mismatch_409 : Response :=
  {| status_code := 409; text := "{...}"; json := Some (VDict mismatch_data) |}.

(** The body
    [{error: {code: version_mismatch, details: {required_version: 2027-01-01}}}],
    with no message, under status 409. *)
Definition spec_mismatch_409 : Response :=
  {| status_code := 409; text := "{...}";
     json := Some (VDict {["error" :=
                             VDict (<["code" := VStr "version_mismatch"]>
                                      {["details" := VDict mismatch_details]})]}) |}.

(** The body [{error: {code: version_mismatch, message: upgrade, details: null}}]
    under status 409. *)
Definition mismatch_409_null_details : Response :=
  {| status_code := 409; text := "{...}";
     json := Some (VDict {["error" :=
                             VDict (<["code" := VStr "version_mismatch"]>
                                      (<["message" := VStr "upgrade"]>
                                         {["details" := VNone]}))]}) |}.

(** A 500 with an empty body, and a 502 with a body that is no JSON. *)
Definition empty_500 : Response := {| status_code := 500; text := ""; json := None |}.
Definition html_502 : Response :=
  {| status_code := 502; text := "<html>Bad Gateway</html>"; json := None |}.

(** A merchant, its discovery document and the profile [discover] makes
    of it. *)
Definition shop_url : string := "https://shop.example/".
Definition agent_url : string := "https://agent.example/profile.json".
Definition w0 : World := World_init agent_url.

Definition checkout_cap : value :=
  VDict (<["name" := VStr "dev.ucp.shopping.checkout"]> {["version" := VStr "2026-01-11"]}).
Definition gpay_handler : value :=
  VDict (<["id" := VStr "gp"]> {["type" := VStr "com.google.pay"]}).

Definition discovery_doc (caps : list value) : value :=
  VDict (<["ucp" := VDict (<["version" := VStr "2026-01-11"]>
                            (<["capabilities" := VList caps]>
                               {["payment_handlers" := VList [gpay_handler] ]}))]>
           {["merchant" := VDict (<["name" := VStr "Shop"]>
                                    {["rest_endpoint" := VStr "https://shop.example/api/"]})]}).

Definition shop_profile (caps : list Capability.t) : MerchantProfile.t :=
  {| MerchantProfile.name := VStr "Shop";
     MerchantProfile.description := VStr "";
     MerchantProfile.rest_endpoint := VStr "https://shop.example/api/";
     MerchantProfile.ucp_version := VStr "2026-01-11";
     MerchantProfile.capabilities := caps;
     MerchantProfile.payment_handlers :=
       [PaymentHandler.mk (VStr "gp") (VStr "com.google.pay") (VDict ∅)];
     MerchantProfile.extensions := VList [] |}.

Definition ok_200 (v : value) : Outcome :=
  Responded {| status_code := 200; text := "{...}"; json := Some v |}.

(** A transport: [discovery] answers the well-known request of the shop,
    [call] every other request. *)
Definition serve (discovery call : Outcome) : list Request → Request → Outcome :=
  λ _ q,
    if String.eqb (url q) "https://shop.example/.well-known/ucp"
    then discovery else call.

Definition checkout_capability : Capability.t :=
  Capability.mk (VStr "dev.ucp.shopping.checkout") (VStr "2026-01-11").

(** The shop answers discovery and nothing else. *)
Definition shop_only_discovery : list Request → Request → Outcome :=
  serve (ok_200 (discovery_doc [checkout_cap])) (RequestError "connection refused").

(** The shop is down: discovery gets a 503 with a body that is no JSON. *)
Definition unavailable_503 : Response :=
  {| status_code := 503; text := "Service Unavailable"; json := None |}.
Definition shop_down : list Request → Request → Outcome :=
  serve (Responded unavailable_503) (Responded unavailable_503).

(** The shop advertises no capability at all. *)
Definition shop_without_checkout : list Request → Request → Outcome :=
  serve (ok_200 (discovery_doc [])) (RequestError "connection refused").

(** The shop refuses every request with the version mismatch of above. *)
Definition shop_mismatch : list Request → Request → Outcome :=
  serve (Responded mismatch_409) (Responded mismatch_409).

(** The shop answers discovery, and every other request with the version
    mismatch. *)
Definition shop_mismatch_on_call : list Request → Request → Outcome :=
  serve (ok_200 (discovery_doc [checkout_cap])) (Responded mismatch_409).

(** The shop answers a checkout call with a session whose one line item
    has no quantity. *)
Definition session_without_quantity : value :=
  VDict (<["id" := VStr "sess-1"]>
           {["line_items" := VList [VDict {["sku" := VStr "mug"]}] ]}).
Definition shop_without_quantity : list Request → Request → Outcome :=
  serve (ok_200 (discovery_doc [checkout_cap])) (ok_200 session_without_quantity).

(** The shop answers a checkout call with a session whose one line item
    has quantity 3. *)
Definition session_of_three : value :=
  VDict (<["id" := VStr "sess-2"]>
           {["line_items" :=
               VList [VDict (<["sku" := VStr "mug"]> {["quantity" := VInt 3]})] ]}).
Definition shop_of_three : list Request → Request → Outcome :=
  serve (ok_200 (discovery_doc [checkout_cap])) (ok_200 session_of_three).

(** A merchant with the capabilities A and B, and one with the checkout
    capability and B. *)
Definition profile_named (names : list string) : MerchantProfile.t :=
  shop_profile ((λ n, Capability.mk (VStr n) (VStr "")) <$> names).

(** A [list(s)] that lists the members in the order of [elements]. *)
Definition in_order : list value → gset string → list string := λ _, elements.

(** A [list(s)] whose order depends on the list the set was built from. *)
Definition by_parity : list value → gset string → list string :=
  λ xs s, if Nat.even (length xs) then elements s else reverse (elements s).

(** Two profiles with the same capability names and handler types, in
    different orders, versions and repetitions. *)
Definition tidy_profile : MerchantProfile.t :=
  {| MerchantProfile.name := VStr "Shop";
     MerchantProfile.description := VStr "";
     MerchantProfile.rest_endpoint := VStr "https://shop.example/api/";
     MerchantProfile.ucp_version := VStr "2026-01-11";
     MerchantProfile.capabilities :=
       [Capability.mk (VStr "dev.ucp.shopping.checkout") (VStr "1")];
     MerchantProfile.payment_handlers :=
       [PaymentHandler.mk (VStr "gp") (VStr "com.google.pay") (VDict ∅);
        PaymentHandler.mk (VStr "ap") (VStr "dev.ucp.ap2") (VDict ∅)];
     MerchantProfile.extensions := VList [] |}.
Definition untidy_profile : MerchantProfile.t :=
  {| MerchantProfile.name := VStr "Shop";
     MerchantProfile.description := VStr "";
     MerchantProfile.rest_endpoint := VStr "https://shop.example/api/";
     MerchantProfile.ucp_version := VStr "2026-01-11";
     MerchantProfile.capabilities :=
       [Capability.mk (VStr "dev.ucp.shopping.checkout") (VStr "2");
        Capability.mk (VStr "dev.ucp.shopping.checkout") (VStr "1")];
     MerchantProfile.payment_handlers :=
       [PaymentHandler.mk (VStr "ap") (VStr "dev.ucp.ap2") (VDict ∅);
        PaymentHandler.mk (VStr "g2") (VStr "com.google.pay") (VDict ∅);
        PaymentHandler.mk (VStr "gp") (VStr "com.google.pay") (VDict ∅)];
     MerchantProfile.extensions := VList [] |}.

(** Keyword arguments with the merchant URL and two more. *)
Definition gift_kwargs : gmap string value :=
  <["merchant_url" := VStr shop_url]>
    (<["note" := VStr "gift"]> {["shipping" := VStr "express"]}).

(** A clock and an ISO parser that keeps the text. *)
Definition clock (n : nat) : string := "2026-01-11T10:00:0" +:+ pretty n.
Definition iso (v : value) : option string := as_str v.

(** The shop answers an order query with an order that has an id only. *)
Definition order_with_id_only : Response :=
  {| status_code := 200; text := "{...}"; json := Some (VDict {["id" := VStr "ord-1"]}) |}.
Definition shop_with_order : list Request → Request → Outcome :=
  serve (ok_200 (discovery_doc [checkout_cap])) (Responded order_with_id_only).

(** The shop advertises no capability and refuses every call with the
    version mismatch. *)
Definition shop_without_checkout_mismatch : list Request → Request → Outcome :=
  serve (ok_200 (discovery_doc [])) (Responded mismatch_409).

(** The world after the shop has been discovered from [w0], with and
    without the checkout capability. *)
Definition w_shop : World := snd (discover shop_only_discovery shop_url w0).
Definition w_shop_without_checkout : World :=
  snd (discover shop_without_checkout shop_url w0).

(** A 404 with an empty JSON object, and the version mismatch with [null]
    for its details. *)
Definition empty_object_404 : Response :=
  {| status_code := 404; text := "{}"; json := Some (VDict ∅) |}.
Definition mismatch_null_details : Response :=
  {| status_code := 409; text := "{...}";
     json := Some (VDict {["error" :=
                             VDict (<["code" := VStr "version_mismatch"]>
                                      {["details" := VNone]})]}) |}.

(** The shop answers discovery with an empty JSON object; with a capability
    that has no name. *)
Definition shop_empty_discovery : list Request → Request → Outcome :=
  serve (ok_200 (VDict ∅)) (RequestError "connection refused").
Definition nameless_cap : value := VDict {["version" := VStr "2026-01-11"]}.
Definition shop_nameless_capability : list Request → Request → Outcome :=
  serve (ok_200 (discovery_doc [checkout_cap; nameless_cap]))
    (RequestError "connection refused").

End Samples.

(** * Properties *)

(** ** Values *)

Lemma str_eq_true (v : value) (s : string) : str_eq v s = true ↔ v = VStr s.
Proof.
  destruct v; simpl; try (split; [discriminate | congruence]).
  rewrite String.eqb_eq. split; congruence.
Qed.

Lemma str_eq_false (v : value) (s : string) : str_eq v s = false ↔ v ≠ VStr s.
Proof.
  rewrite <- str_eq_true. destruct (str_eq v s); split; congruence.
Qed.

(** [d or {}] is [d] for a dict [d], empty or not. *)
Lemma py_or_dict (d : gmap string value) : py_or (VDict d) (VDict ∅) = VDict d.
Proof.
  unfold py_or; simpl. destruct (Nat.eqb_spec (size d) 0) as [E|E]; simpl; [|done].
  apply map_size_empty_inv in E. by subst.
Qed.

Lemma py_or_str (s : string) :
  py_or (VStr s) (VStr "Unknown error") = VStr (if String.eqb s "" then "Unknown error" else s).
Proof. unfold py_or; simpl. by destruct (String.eqb s ""). Qed.

(** ** The error mapper *)

(** The [try] block of the mapper raises exactly when the body is no JSON,
    is no object, or has an [error] member that is no object. *)
Lemma error_payload_None (r : Response) :
  error_payload r = None ↔
    json r = None
    ∨ (∃ v, json r = Some v ∧ ∀ d, v ≠ VDict d)
    ∨ (∃ d e, json r = Some (VDict d) ∧ d !! "error" = Some e ∧ ∀ d', e ≠ VDict d').
Proof.
  unfold error_payload. destruct (json r) as [v|]; simpl; [|naive_solver].
  destruct v; simpl; try (split; [intros _; right; left; eexists; split; [done|congruence] | done]).
  unfold dict_get. destruct (d !! "error") as [e|] eqn:E; simpl.
  - destruct e; simpl;
      try (split; [intros _; right; right; eexists _, _; repeat split; [done|congruence] | done]).
    split; [done|]. intros [?|[(v & ? & Hv)|(d1 & e & ? & ? & He)]]; simplify_eq.
    + by destruct (Hv d).
    + by destruct (He d0).
  - split; [done|]. intros [?|[(v & ? & Hv)|(d1 & e & ? & ? & He)]]; simplify_eq.
    by destruct (Hv d).
Qed.

(** X19: a body that is an object with an [error] object whose [details]
    member is an object or absent maps to [VersionError] with
    [details.required_version] when the code is [version_mismatch], to
    [CapabilityError] with [details.capability] when it is
    [capability_not_supported], and to a plain [UCPError] with the parsed
    code, message and details otherwise; a missing [code], [message],
    [required_version] or [capability] takes its default, and the status code
    has no say. *)
Theorem handle_error_response_structured
    (r : Response) (data error details : gmap string value) :
  json r = Some (VDict data) →
  data !! "error" = Some (VDict error) →
  dict_get error "details" (VDict ∅) = VDict details →
  let code := dict_get error "code" (VStr "unknown_error") in
  let message := dict_get error "message" (VStr "Unknown error") in
  (code = VStr "version_mismatch" →
     _handle_error_response r =
       VersionError UCP_VERSION (dict_get details "required_version" (VStr "unknown")))
  ∧ (code = VStr "capability_not_supported" →
     _handle_error_response r =
       CapabilityError (dict_get details "capability" (VStr "unknown")))
  ∧ (code ≠ VStr "version_mismatch" → code ≠ VStr "capability_not_supported" →
     _handle_error_response r = UCPError_ code message (VDict details))
  ∧ (∀ status body_text,
       _handle_error_response {| status_code := status; text := body_text; json := json r |}
       = _handle_error_response r).
Proof.
  intros Hj He Hd code message.
  assert (Hp : ∀ s t, error_payload {| status_code := s; text := t; json := json r |}
                      = Some (code, message, VDict details)).
  { assert (Herr : dict_get data "error" (VDict ∅) = VDict error).
    { unfold dict_get. by rewrite He. }
    intros s t. unfold error_payload; simpl. rewrite Hj; simpl.
    rewrite !Herr; simpl. by rewrite Hd. }
  assert (Hp' : error_payload r = Some (code, message, VDict details)).
  { specialize (Hp (status_code r) (text r)). by destruct r. }
  repeat split.
  - intros Hc. unfold _handle_error_response. rewrite Hp'. by rewrite Hc.
  - intros Hc. unfold _handle_error_response. rewrite Hp'. by rewrite Hc.
  - intros H1 H2. unfold _handle_error_response. rewrite Hp'.
    apply str_eq_false in H1, H2. rewrite H1, H2.
    unfold UCPError; simpl. by rewrite py_or_dict.
  - intros s t. unfold _handle_error_response. by rewrite Hp, Hp'.
Qed.

Lemma handle_error_response_structured_witness :
  _handle_error_response Samples.spec_mismatch_409
  = VersionError UCP_VERSION (VStr "2027-01-01").
Proof.
  apply (handle_error_response_structured Samples.spec_mismatch_409
           {["error" := VDict (<["code" := VStr "version_mismatch"]>
                                 {["details" := VDict Samples.mismatch_details]})]}
           (<["code" := VStr "version_mismatch"]>
              {["details" := VDict Samples.mismatch_details]})
           Samples.mismatch_details);
    reflexivity.
Defined.

(** C2 fails on the code: on the 409 of [Samples.mismatch_409_null_details],
    whose body has the code [version_mismatch], a message and [null] for its
    details, the [try] block of the mapper parses all three, and the mapper
    then raises an exception that is no [UCPError] where the claim has
    [VersionError]: [details.get] stands outside the [try]. *)
Theorem handle_error_response_null_details :
  is_success Samples.mismatch_409_null_details = false
  ∧ error_payload Samples.mismatch_409_null_details
    = Some (VStr "version_mismatch", VStr "upgrade", VNone)
  ∧ _handle_error_response Samples.mismatch_409_null_details = PythonError.
Proof. repeat split; vm_compute; reflexivity. Qed.

(** C7, as stated, fails on an empty body: a 500 whose body is empty and
    so no JSON gets the message [Unknown error], not the empty text. *)
Lemma handle_error_response_unparsed_empty_body :
  is_success Samples.empty_500 = false
  ∧ error_payload Samples.empty_500 = None
  ∧ text Samples.empty_500 = ""
  ∧ _handle_error_response Samples.empty_500
    = UCPError_ (VStr "http_500") (VStr "Unknown error") (VDict ∅)
  ∧ ∀ code details,
      _handle_error_response Samples.empty_500
      ≠ UCPError_ code (VStr (text Samples.empty_500)) details.
Proof. repeat split; try reflexivity. intros code details. vm_compute. discriminate. Qed.

(** C7, amended: when the [try] block of the mapper raises, the error has
    code [http_] followed by the status code, no details, and as message the
    raw body text, or [Unknown error] when the body is empty. *)
Theorem handle_error_response_unparsed (r : Response) :
  error_payload r = None →
  _handle_error_response r
  = UCPError_ (VStr ("http_" +:+ str_of_int (status_code r)))
      (VStr (if String.eqb (text r) "" then "Unknown error" else text r))
      (VDict ∅).
Proof.
  intros Hp. unfold _handle_error_response. rewrite Hp. simpl.
  unfold UCPError. simpl. by rewrite py_or_dict, py_or_str.
Qed.

Lemma handle_error_response_unparsed_witness :
  _handle_error_response Samples.html_502
  = UCPError_ (VStr "http_502") (VStr "<html>Bad Gateway</html>") (VDict ∅).
Proof.
  apply (handle_error_response_unparsed Samples.html_502). reflexivity.
Defined.

(** ** Running the monad *)

Lemma bind_lift {A B} (o : option A) (k : A → M B) (w : World) :
  bind (lift o) k w = match o with Some a => k a w | None => (Raise PythonError, w) end.
Proof. by destruct o. Qed.

Lemma for_each_lift {A B} (f : A → M B) (g : A → option B) (xs : list A) :
  (∀ x w, f x w = lift (g x) w) →
  ∀ w, for_each f xs w = lift (mapM g xs) w.
Proof.
  intros Hf. induction xs as [|x xs IH]; intros w; [done|].
  simpl. unfold bind at 1. rewrite Hf.
  destruct (g x) as [y|]; simpl; [|done].
  unfold bind at 1. rewrite IH.
  by destruct (mapM g xs).
Qed.

Lemma bind_for_each_lift {A B C} (f : A → M B) (g : A → option B) (xs : list A)
    (k : list B → M C) (w : World) :
  (∀ x w, f x w = lift (g x) w) →
  bind (for_each f xs) k w = bind (lift (mapM g xs)) k w.
Proof. intros Hf. unfold bind. by rewrite (for_each_lift f g). Qed.

(** One step of a run of operations that only raise Python exceptions; the
    branch that raises is closed by [tac]. *)
Ltac pure_step_with tac :=
  rewrite bind_lift;
  match goal with
  | |- context [match ?o with Some _ => _ | None => _ end] =>
      destruct o eqn:?; simpl; [|tac]
  end.
Ltac pure_step := pure_step_with ltac:(done).
Ltac pure_step_inv := pure_step_with ltac:(by intros [= <- <-]).

Lemma parse_capability_run (c : value) (w : World) :
  (let* n := lift (py_getitem c "name") in
   let* v := lift (py_get c "version" (VStr "")) in
   ret (Capability.mk n v)) w = lift (parse_capability c) w.
Proof. unfold parse_capability. repeat pure_step. done. Qed.

Lemma parse_handler_run (h : value) (w : World) :
  (let* i := lift (py_get h "id" (VStr "")) in
   let* t := lift (py_get h "type" (VStr "")) in
   let* c := lift (py_get h "config" (VDict ∅)) in
   ret (PaymentHandler.mk i t c)) w = lift (parse_handler h) w.
Proof. unfold parse_handler. repeat pure_step. done. Qed.

Lemma parse_line_item_run (item : value) (w : World) :
  (let* sku := lift (py_get item "sku" (VStr "")) in
   let* quantity := lift (py_get item "quantity" (VInt 0)) in
   let* price_cents := lift (py_get item "price_cents" VNone) in
   let* name := lift (py_get item "name" VNone) in
   let* description := lift (py_get item "description" VNone) in
   ret (LineItem.mk sku quantity price_cents name description)) w
  = lift (parse_line_item item) w.
Proof. unfold parse_line_item. repeat pure_step. done. Qed.

Lemma get_client_eq (w : World) : _get_client w = (Ok (client_of w), with_client w).
Proof. by destruct w as [[a [c|] m] s k]. Qed.

Lemma with_client_idem (w : World) : with_client (with_client w) = with_client w.
Proof. by destruct w as [[a [c|] m] s k]. Qed.

Lemma client_of_with_client (w : World) : client_of (with_client w) = client_of w.
Proof. by destruct w as [[a [c|] m] s k]. Qed.

(** ** Discovery *)

Section Discovery.

Variable transport : list Request → Request → Outcome.

Lemma discover_hit (u : string) (w : World) (p : MerchantProfile.t) :
  _merchant_cache (self w) !! u = Some p → discover transport u w = (Ok p, w).
Proof. intros H. unfold discover. by rewrite H. Qed.

(** On a cache miss [discover] issues the well-known request and ends in
    one of four ways. *)
Lemma discover_miss (u : string) (w : World) :
  _merchant_cache (self w) !! u = None →
  discover transport u w =
    let q := well_known_request u w in
    let w' := log q (with_client w) in
    match transport (sent w) q with
    | Responded r =>
        if is_success r then
          match json r ≫= parse_profile u with
          | Some p =>
              (Ok p, set_merchant_cache (<[u := p]> (_merchant_cache (self w))) w')
          | None => (Raise PythonError, w')
          end
        else (Raise (UCPError (VStr "discovery_failed")
                       (VStr ("Failed to discover merchant: "
                              +:+ str_of_int (status_code r))) None), w')
    | RequestError e =>
        (Raise (UCPError (VStr "network_error")
                  (VStr ("Network error during discovery: " +:+ e)) None), w')
    end.
Proof.
  intros Hm. cbv zeta. unfold discover. rewrite Hm.
  unfold bind at 1. rewrite get_client_eq.
  unfold bind at 1. unfold send.
  change (sent (with_client w)) with (sent w).
  fold (well_known_request u w).
  destruct (transport (sent w) (well_known_request u w)) as [r|e]; [|done].
  unfold bind at 1.
  destruct (is_success r); [|done]. unfold ret at 1.
  rewrite bind_lift. destruct (json r) as [data|]; [|done]. simpl.
  unfold parse_profile.
  repeat pure_step.
  erewrite (bind_for_each_lift _ parse_capability) by apply parse_capability_run.
  repeat pure_step.
  erewrite (bind_for_each_lift _ parse_handler) by apply parse_handler_run.
  repeat pure_step.
  reflexivity.
Qed.

(** What a run of [discover] leaves behind. *)
Lemma discover_cases (u : string) (w w' : World) (r : Result MerchantProfile.t) :
  discover transport u w = (r, w') →
  (∃ p, _merchant_cache (self w) !! u = Some p ∧ r = Ok p ∧ w' = w)
  ∨ (_merchant_cache (self w) !! u = None
     ∧ sent w' = well_known_request u w :: sent w
     ∧ _http_client (self w') = Some (client_of w)
     ∧ ((∃ e, r = Raise e ∧ _merchant_cache (self w') = _merchant_cache (self w))
        ∨ (∃ resp data p,
             transport (sent w) (well_known_request u w) = Responded resp
             ∧ is_success resp = true
             ∧ json resp = Some data
             ∧ parse_profile u data = Some p
             ∧ r = Ok p
             ∧ _merchant_cache (self w') = <[u := p]> (_merchant_cache (self w))))).
Proof.
  destruct (_merchant_cache (self w) !! u) as [p|] eqn:Hc.
  - rewrite (discover_hit u w p Hc). intros [= <- <-]. left. eauto.
  - rewrite (discover_miss u w Hc). cbv zeta. intros H. right. split; [done|].
    destruct (transport (sent w) (well_known_request u w)) as [resp|e].
    + destruct (is_success resp) eqn:Hs.
      * destruct (json resp) as [data|] eqn:Hj; simpl in H.
        -- destruct (parse_profile u data) as [p|] eqn:Hp;
             injection H as <- <-; (repeat split; [done..|]); [right|left]; eauto 10.
        -- injection H as <- <-. repeat split; [done..|]. left; eauto.
      * injection H as <- <-. repeat split; [done..|]. left; eauto.
    + injection H as <- <-. repeat split; [done..|]. left; eauto.
Qed.

(** C3, amended: when [u] is a key of the cache, [discover] returns the
    cached profile and leaves the world as it is, the log of wire calls
    included; so a call of [discover] that returns a profile is followed by a
    call that returns the same profile with no further wire call, and the two
    issue at most one wire call. *)
Theorem discover_idempotent_cache (u : string) (w : World) :
  (∀ p, _merchant_cache (self w) !! u = Some p →
        discover transport u w = (Ok p, w))
  ∧ (∀ p w1, discover transport u w = (Ok p, w1) →
        discover transport u w1 = (Ok p, w1)
        ∧ ∃ new, sent w1 = new ++ sent w ∧ length new ≤ 1).
Proof.
  split; [apply discover_hit|].
  intros p w1 H.
  destruct (discover_cases u w w1 (Ok p) H)
    as [(p' & Hc & [= <-] & ->)|(Hc & Hs & _ & [(e & [=] & _)|(resp & data & p' & _ & _ & _ & _ & [= <-] & Hc')])].
  - split; [by apply discover_hit|]. exists []. simpl. split; [done|lia].
  - split.
    + apply discover_hit. rewrite Hc'. apply lookup_insert_eq.
    + exists [well_known_request u w]. simpl. split; [done|lia].
Qed.

(** C9: a run of [discover] that raises leaves the cache as it was; the
    cache changes only by the entry for [u], put there once a 2xx response
    has come in and its body has parsed into the profile returned. *)
Theorem discover_failure_keeps_cache (u : string) (w w' : World)
    (r : Result MerchantProfile.t) :
  discover transport u w = (r, w') →
  (∀ e, r = Raise e → _merchant_cache (self w') = _merchant_cache (self w))
  ∧ (_merchant_cache (self w') ≠ _merchant_cache (self w) →
     ∃ resp data p,
       transport (sent w) (well_known_request u w) = Responded resp
       ∧ is_success resp = true
       ∧ json resp = Some data
       ∧ parse_profile u data = Some p
       ∧ r = Ok p
       ∧ _merchant_cache (self w') = <[u := p]> (_merchant_cache (self w))).
Proof.
  intros H.
  destruct (discover_cases u w w' r H)
    as [(p & Hc & -> & ->)|(Hc & Hs & _ & [(e & -> & He)|Hok])].
  - split; [done|]. by intros [].
  - split; [done|]. by intros [].
  - split; [|done]. intros e ->. by destruct Hok as (? & ? & ? & ? & ? & ? & ? & [=] & ?).
Qed.

End Discovery.

Lemma discover_idempotent_cache_witness :
  discover Samples.shop_only_discovery Samples.shop_url
    (snd (discover Samples.shop_only_discovery Samples.shop_url Samples.w0))
  = (Ok (Samples.shop_profile [Samples.checkout_capability]),
     snd (discover Samples.shop_only_discovery Samples.shop_url Samples.w0)).
Proof.
  refine (proj1 (proj2 (discover_idempotent_cache Samples.shop_only_discovery
                          Samples.shop_url Samples.w0) _ _ _)).
  vm_compute. reflexivity.
Defined.

Lemma discover_failure_keeps_cache_witness :
  _merchant_cache (self (snd (discover Samples.shop_down Samples.shop_url Samples.w0)))
  = _merchant_cache (self Samples.w0).
Proof.
  refine (proj1 (discover_failure_keeps_cache Samples.shop_down Samples.shop_url
                   Samples.w0 _
                   (Raise (UCPError_ (VStr "discovery_failed")
                             (VStr "Failed to discover merchant: 503") (VDict ∅))) _)
            _ eq_refl).
  vm_compute. reflexivity.
Defined.

(** C3, as stated, fails when the first call fails: nothing is cached then,
    and of two calls of [discover] in a row on a shop that answers 503 each
    issues a request and neither returns a profile. *)
Lemma discover_twice_on_failure :
  sent Samples.w0 = []
  ∧ fst (discover Samples.shop_down Samples.shop_url Samples.w0)
    = Raise (UCPError_ (VStr "discovery_failed")
               (VStr "Failed to discover merchant: 503") (VDict ∅))
  ∧ fst (discover Samples.shop_down Samples.shop_url
           (snd (discover Samples.shop_down Samples.shop_url Samples.w0)))
    = Raise (UCPError_ (VStr "discovery_failed")
               (VStr "Failed to discover merchant: 503") (VDict ∅))
  ∧ sent (snd (discover Samples.shop_down Samples.shop_url
                 (snd (discover Samples.shop_down Samples.shop_url Samples.w0))))
    = [well_known_request Samples.shop_url Samples.w0;
       well_known_request Samples.shop_url Samples.w0].
Proof. repeat split; vm_compute; reflexivity. Qed.

(** ** Checkout *)

Section Checkout.

Context {datetime : Type}.
Variable fromisoformat : value → option datetime.
Variable now_isoformat : nat → string.
Variable transport : list Request → Request → Outcome.

Lemma bind_now {B} (k : string → M B) (w : World) :
  bind (datetime_now_isoformat now_isoformat) k w
  = k (now_isoformat (clock_reads w))
      {| self := self w; sent := sent w; clock_reads := S (clock_reads w) |}.
Proof. done. Qed.

(** Parsing a session reads the clock and touches nothing else. *)
Lemma parse_checkout_session_frame data u hs w r w' :
  _parse_checkout_session fromisoformat now_isoformat data u hs w = (r, w') →
  self w' = self w ∧ sent w' = sent w.
Proof.
  unfold _parse_checkout_session.
  repeat pure_step_inv.
  erewrite (bind_for_each_lift _ parse_line_item) by apply parse_line_item_run.
  repeat pure_step_inv.
  rewrite bind_now. pure_step_inv. rewrite bind_now. repeat pure_step_inv.
  by intros [= <- <-].
Qed.

(** The line items of a parsed session are the entries of [line_items]
    in the response, parsed one by one. *)
Lemma parse_checkout_session_items data u hs w s w' :
  _parse_checkout_session fromisoformat now_isoformat data u hs w = (Ok s, w') →
  ∃ items,
    py_get data "line_items" (VList []) ≫= py_iter = Some items
    ∧ mapM parse_line_item items = Some (CheckoutSession.line_items s).
Proof.
  unfold _parse_checkout_session.
  repeat pure_step_inv.
  erewrite (bind_for_each_lift _ parse_line_item) by apply parse_line_item_run.
  repeat pure_step_inv.
  rewrite bind_now. pure_step_inv. rewrite bind_now. repeat pure_step_inv.
  intros [= <- <-]. simpl. eauto.
Qed.

Lemma parse_order_frame data w r w' : parse_order data w = (r, w') → w' = w.
Proof. unfold parse_order. repeat pure_step_inv. by intros [= <- <-]. Qed.

(** *** The wire call of each method

    Once a method has the merchant profile with a [str] endpoint, it
    issues its one request and goes on by the outcome. *)

Lemma create_checkout_run (u ep : string) (line_items : value)
    (kwargs : gmap string value) (w w1 : World) (m : MerchantProfile.t) :
  discover transport u w = (Ok m, w1) →
  has_checkout m = true →
  MerchantProfile.rest_endpoint m = VStr ep →
  create_checkout fromisoformat now_isoformat transport u line_items kwargs w =
    let q := wire_request POST (rstrip_slash ep +:+ "/checkout") w1
               (Some (VDict (kwargs ∪ {["line_items" := line_items]}))) in
    let w2 := log q (with_client w1) in
    match transport (sent w1) q with
    | Responded r =>
        if is_success r then
          match json r with
          | Some data =>
              _parse_checkout_session fromisoformat now_isoformat data u
                (MerchantProfile.payment_handlers m) w2
          | None => (Raise PythonError, w2)
          end
        else (Raise (_handle_error_response r), w2)
    | RequestError e =>
        (Raise (UCPError (VStr "network_error") (VStr ("Network error: " +:+ e)) None),
         w2)
    end.
Proof.
  intros Hd Hc He. cbv zeta. unfold create_checkout.
  unfold bind at 1. rewrite Hd. fold (has_checkout m). rewrite Hc. simpl.
  unfold bind at 1. rewrite get_client_eq.
  rewrite He. rewrite bind_lift. simpl.
  unfold bind at 1. unfold send.
  change (sent (with_client w1)) with (sent w1).
  fold (wire_request POST (rstrip_slash ep +:+ "/checkout") w1
          (Some (VDict (kwargs ∪ {["line_items" := line_items]})))).
  destruct (transport _ _) as [r|e]; [|done].
  unfold bind at 1. destruct (is_success r); [|done]. unfold ret at 1.
  rewrite bind_lift. by destruct (json r).
Qed.

Lemma update_checkout_run (session_id u ep : string) (kwargs : gmap string value)
    (w w1 : World) (m : MerchantProfile.t) :
  kwargs !! "merchant_url" = Some (VStr u) → u ≠ "" →
  discover transport u (with_client w) = (Ok m, w1) →
  MerchantProfile.rest_endpoint m = VStr ep →
  update_checkout fromisoformat now_isoformat transport session_id kwargs w =
    let q := wire_request PATCH (rstrip_slash ep +:+ "/checkout/" +:+ session_id) w
               (Some (VDict (delete "merchant_url" kwargs))) in
    let w2 := log q w1 in
    match transport (sent w1) q with
    | Responded r =>
        if is_success r then
          match json r with
          | Some data =>
              _parse_checkout_session fromisoformat now_isoformat data u
                (MerchantProfile.payment_handlers m) w2
          | None => (Raise PythonError, w2)
          end
        else (Raise (_handle_error_response r), w2)
    | RequestError e =>
        (Raise (UCPError (VStr "network_error") (VStr ("Network error: " +:+ e)) None),
         w2)
    end.
Proof.
  intros Hk Hu Hd He. cbv zeta. unfold update_checkout.
  unfold bind at 1. rewrite get_client_eq. rewrite Hk. simpl.
  destruct (String.eqb_spec u "") as [|_]; [done|]. simpl.
  unfold bind at 1. unfold bind at 1. rewrite Hd. unfold ret at 1.
  rewrite He. rewrite bind_lift. simpl.
  unfold bind at 1. unfold send.
  fold (wire_request PATCH (rstrip_slash ep +:+ "/checkout/" +:+ session_id) w
          (Some (VDict (delete "merchant_url" kwargs)))).
  destruct (transport _ _) as [r|e]; [|done].
  unfold bind at 1. destruct (is_success r); [|done]. unfold ret at 1.
  rewrite bind_lift. by destruct (json r).
Qed.

Lemma complete_checkout_run (session_id u ep : string) (payment_data : value)
    (kwargs : gmap string value) (w w1 : World) (m : MerchantProfile.t) :
  kwargs !! "merchant_url" = Some (VStr u) → u ≠ "" →
  discover transport u (with_client w) = (Ok m, w1) →
  MerchantProfile.rest_endpoint m = VStr ep →
  complete_checkout transport session_id payment_data kwargs w =
    let q := wire_request POST
               (rstrip_slash ep +:+ "/checkout/" +:+ session_id +:+ "/complete") w
               (Some (VDict (delete "merchant_url" kwargs
                             ∪ {["payment" := payment_data]}))) in
    let w2 := log q w1 in
    match transport (sent w1) q with
    | Responded r =>
        if is_success r then
          match json r with
          | Some data => parse_order data w2
          | None => (Raise PythonError, w2)
          end
        else (Raise (_handle_error_response r), w2)
    | RequestError e =>
        (Raise (UCPError (VStr "network_error") (VStr ("Network error: " +:+ e)) None),
         w2)
    end.
Proof.
  intros Hk Hu Hd He. cbv zeta. unfold complete_checkout.
  unfold bind at 1. rewrite get_client_eq. rewrite Hk. simpl.
  destruct (String.eqb_spec u "") as [|_]; [done|]. simpl.
  unfold bind at 1. unfold bind at 1. rewrite Hd. unfold ret at 1.
  rewrite He. rewrite bind_lift. simpl.
  unfold bind at 1. unfold send.
  fold (wire_request POST
          (rstrip_slash ep +:+ "/checkout/" +:+ session_id +:+ "/complete") w
          (Some (VDict (delete "merchant_url" kwargs ∪ {["payment" := payment_data]})))).
  destruct (transport _ _) as [r|e]; [|done].
  unfold bind at 1. destruct (is_success r); [|done]. unfold ret at 1.
  rewrite bind_lift. by destruct (json r).
Qed.

Lemma get_order_run (order_id u ep : string) (w w1 : World) (m : MerchantProfile.t) :
  discover transport u (with_client w) = (Ok m, w1) →
  MerchantProfile.rest_endpoint m = VStr ep →
  get_order transport order_id u w =
    let q := wire_request GET (rstrip_slash ep +:+ "/orders/" +:+ order_id) w None in
    let w2 := log q w1 in
    match transport (sent w1) q with
    | Responded r =>
        if is_success r then
          match json r with
          | Some data => parse_order data w2
          | None => (Raise PythonError, w2)
          end
        else (Raise (_handle_error_response r), w2)
    | RequestError e =>
        (Raise (UCPError (VStr "network_error") (VStr ("Network error: " +:+ e)) None),
         w2)
    end.
Proof.
  intros Hd He. cbv zeta. unfold get_order.
  unfold bind at 1. rewrite get_client_eq.
  unfold bind at 1. rewrite Hd.
  rewrite He. rewrite bind_lift. simpl.
  unfold bind at 1. unfold send.
  fold (wire_request GET (rstrip_slash ep +:+ "/orders/" +:+ order_id) w None).
  destruct (transport _ _) as [r|e]; [|done].
  unfold bind at 1. destruct (is_success r); [|done]. unfold ret at 1.
  rewrite bind_lift. by destruct (json r).
Qed.

(** *** What goes out *)

(** What [kwargs.pop] gives is a non-empty [str], or falsy, or a truthy
    object that is no [str]. *)
Lemma merchant_url_cases (kwargs : gmap string value) :
  let x := default VNone (kwargs !! "merchant_url") in
  (∃ u, kwargs !! "merchant_url" = Some (VStr u) ∧ u ≠ "")
  ∨ truthy x = false
  ∨ (truthy x = true ∧ ∀ u, x ≠ VStr u).
Proof.
  cbv zeta. destruct (kwargs !! "merchant_url") as [v|]; simpl; [|by auto].
  destruct v as [|b|n|s|l|d]; simpl.
  - auto.
  - destruct b; auto.
  - destruct (n =? 0)%Z; simpl; auto.
  - destruct (String.eqb_spec s ""); simpl; [by auto|]. left; eauto.
  - destruct l; auto.
  - destruct (size d =? 0); simpl; auto.
Qed.

Lemma update_checkout_early (session_id : string) (kwargs : gmap string value)
    (w : World) :
  let x := default VNone (kwargs !! "merchant_url") in
  truthy x = false ∨ (truthy x = true ∧ ∀ u, x ≠ VStr u) →
  ∃ e, update_checkout fromisoformat now_isoformat transport session_id kwargs w
       = (Raise e, with_client w).
Proof.
  cbv zeta. intros Hx. unfold update_checkout.
  unfold bind at 1. rewrite get_client_eq.
  destruct Hx as [->|[-> Hx]]; simpl; [by eauto|].
  destruct (default VNone (kwargs !! "merchant_url")); simpl; eauto.
  by destruct (Hx s).
Qed.

Lemma complete_checkout_early (session_id : string) (payment_data : value)
    (kwargs : gmap string value) (w : World) :
  let x := default VNone (kwargs !! "merchant_url") in
  truthy x = false ∨ (truthy x = true ∧ ∀ u, x ≠ VStr u) →
  ∃ e, complete_checkout transport session_id payment_data kwargs w
       = (Raise e, with_client w).
Proof.
  cbv zeta. intros Hx. unfold complete_checkout.
  unfold bind at 1. rewrite get_client_eq.
  destruct Hx as [->|[-> Hx]]; simpl; [by eauto|].
  destruct (default VNone (kwargs !! "merchant_url")); simpl; eauto.
  by destruct (Hx s).
Qed.

Lemma lacks_checkout (m : MerchantProfile.t) :
  (∀ c, c ∈ MerchantProfile.capabilities m →
        Capability.name c ≠ VStr "dev.ucp.shopping.checkout") →
  existsb (λ c, str_eq (Capability.name c) "dev.ucp.shopping.checkout")
    (MerchantProfile.capabilities m) = false.
Proof.
  intros H. apply not_true_iff_false. rewrite existsb_exists.
  intros (c & Hin & Hc). apply str_eq_true in Hc.
  apply (H c); [by apply list_elem_of_In|done].
Qed.

(** C4: when the profile [discover] returns has no capability named
    [dev.ucp.shopping.checkout], [create_checkout] raises
    [CapabilityError] for that name in the world [discover] left: the log
    holds the discovery request at most, no POST. *)
Theorem create_checkout_capability_gate (u : string) (line_items : value)
    (kwargs : gmap string value) (w w1 : World) (m : MerchantProfile.t) :
  discover transport u w = (Ok m, w1) →
  (∀ c, c ∈ MerchantProfile.capabilities m →
        Capability.name c ≠ VStr "dev.ucp.shopping.checkout") →
  create_checkout fromisoformat now_isoformat transport u line_items kwargs w
  = (Raise (CapabilityError (VStr "dev.ucp.shopping.checkout")), w1)
  ∧ (sent w1 = sent w ∨ sent w1 = well_known_request u w :: sent w).
Proof.
  intros Hd Hc. split.
  - unfold create_checkout. unfold bind at 1. rewrite Hd.
    by rewrite (lacks_checkout m Hc).
  - destruct (discover_cases transport u w w1 (Ok m) Hd)
      as [(_ & _ & _ & ->)|(_ & Hs & _)]; auto.
Qed.

(** C5: without a [merchant_url] among the keyword arguments,
    [complete_checkout] and [update_checkout] raise the [invalid_request]
    error; all they did before is make sure of the HTTP client, and the log
    of wire calls is as it was. *)
Theorem checkout_requires_merchant_url (session_id : string) (payment_data : value)
    (kwargs : gmap string value) (w : World) :
  kwargs !! "merchant_url" = None →
  complete_checkout transport session_id payment_data kwargs w
  = (Raise (UCPError_ (VStr "invalid_request")
              (VStr "merchant_url required for completion") (VDict ∅)),
     with_client w)
  ∧ update_checkout fromisoformat now_isoformat transport session_id kwargs w
    = (Raise (UCPError_ (VStr "invalid_request")
                (VStr "merchant_url required for update") (VDict ∅)),
       with_client w)
  ∧ sent (with_client w) = sent w.
Proof.
  intros H. repeat split.
  - unfold complete_checkout. unfold bind at 1. rewrite get_client_eq. by rewrite H.
  - unfold update_checkout. unfold bind at 1. rewrite get_client_eq. by rewrite H.
Qed.

End Checkout.

Lemma create_checkout_capability_gate_witness :
  create_checkout Samples.iso Samples.clock Samples.shop_without_checkout
    Samples.shop_url (VList []) ∅ Samples.w0
  = (Raise (CapabilityError (VStr "dev.ucp.shopping.checkout")),
     snd (discover Samples.shop_without_checkout Samples.shop_url Samples.w0)).
Proof.
  refine (proj1 (create_checkout_capability_gate Samples.iso Samples.clock
                   Samples.shop_without_checkout Samples.shop_url (VList []) ∅
                   Samples.w0 _ (Samples.shop_profile []) _ _)).
  - vm_compute. reflexivity.
  - intros c Hc. simpl in Hc. by apply elem_of_nil in Hc.
Defined.

Lemma checkout_requires_merchant_url_witness :
  complete_checkout Samples.shop_down "sess-1"
    (VDict {["handler_id" := VStr "gp"]}) {["note" := VStr "gift"]} Samples.w0
  = (Raise (UCPError_ (VStr "invalid_request")
              (VStr "merchant_url required for completion") (VDict ∅)),
     with_client Samples.w0).
Proof.
  refine (proj1 (checkout_requires_merchant_url Samples.iso Samples.clock
                   Samples.shop_down "sess-1" _ _ Samples.w0 _)).
  vm_compute. reflexivity.
Defined.

(** ** Errors of wire calls *)

(** C6, as stated, fails for [discover]: on the structured 409 of
    [Samples.mismatch_409] the mapping gives [VersionError], and [discover]
    raises its own [discovery_failed] instead. *)
Lemma discover_bypasses_error_mapping :
  _merchant_cache (self Samples.w0) !! Samples.shop_url = None
  ∧ Samples.shop_mismatch (sent Samples.w0) (well_known_request Samples.shop_url Samples.w0)
    = Responded Samples.mismatch_409
  ∧ wire_failure (Responded Samples.mismatch_409)
    = Some (VersionError UCP_VERSION (VStr "2027-01-01"))
  ∧ fst (discover Samples.shop_mismatch Samples.shop_url Samples.w0)
    = Raise (UCPError_ (VStr "discovery_failed")
               (VStr "Failed to discover merchant: 409") (VDict ∅)).
Proof. repeat split; vm_compute; reflexivity. Qed.

Section WireErrors.

Context {datetime : Type}.
Variable fromisoformat : value → option datetime.
Variable now_isoformat : nat → string.
Variable transport : list Request → Request → Outcome.

Lemma discover_wire_error (u : string) (w : World) :
  _merchant_cache (self w) !! u = None →
  match transport (sent w) (well_known_request u w) with
  | Responded r =>
      is_success r = false →
      discover transport u w
      = (Raise (UCPError_ (VStr "discovery_failed")
                  (VStr ("Failed to discover merchant: " +:+ str_of_int (status_code r)))
                  (VDict ∅)),
         log (well_known_request u w) (with_client w))
  | RequestError e =>
      discover transport u w
      = (Raise (UCPError_ (VStr "network_error")
                  (VStr ("Network error during discovery: " +:+ e)) (VDict ∅)),
         log (well_known_request u w) (with_client w))
  end.
Proof.
  intros Hm. rewrite (discover_miss transport u w Hm). cbv zeta.
  destruct (transport _ _) as [r|e]; [|done]. by intros ->.
Qed.

(** C6, amended: [create_checkout], [update_checkout], [complete_checkout]
    and [get_order] map a non-2xx response to their own wire call through
    [_handle_error_response] and a connection failure to [network_error]
    ([wire_failure]); [discover] maps every non-2xx response to
    [discovery_failed] with the status code in the message, whatever the
    body, and a connection failure to [network_error]. *)
Theorem wire_errors_by_operation :
  (∀ u w,
     _merchant_cache (self w) !! u = None →
     match transport (sent w) (well_known_request u w) with
     | Responded r =>
         is_success r = false →
         discover transport u w
         = (Raise (UCPError_ (VStr "discovery_failed")
                     (VStr ("Failed to discover merchant: "
                            +:+ str_of_int (status_code r))) (VDict ∅)),
            log (well_known_request u w) (with_client w))
     | RequestError e =>
         discover transport u w
         = (Raise (UCPError_ (VStr "network_error")
                     (VStr ("Network error during discovery: " +:+ e)) (VDict ∅)),
            log (well_known_request u w) (with_client w))
     end)
  ∧ (∀ u ep line_items kwargs w w1 m e,
       discover transport u w = (Ok m, w1) →
       has_checkout m = true →
       MerchantProfile.rest_endpoint m = VStr ep →
       let q := wire_request POST (rstrip_slash ep +:+ "/checkout") w1
                  (Some (VDict (kwargs ∪ {["line_items" := line_items]}))) in
       wire_failure (transport (sent w1) q) = Some e →
       create_checkout fromisoformat now_isoformat transport u line_items kwargs w
       = (Raise e, log q (with_client w1)))
  ∧ (∀ session_id u ep kwargs w w1 m e,
       kwargs !! "merchant_url" = Some (VStr u) → u ≠ "" →
       discover transport u (with_client w) = (Ok m, w1) →
       MerchantProfile.rest_endpoint m = VStr ep →
       let q := wire_request PATCH (rstrip_slash ep +:+ "/checkout/" +:+ session_id) w
                  (Some (VDict (delete "merchant_url" kwargs))) in
       wire_failure (transport (sent w1) q) = Some e →
       update_checkout fromisoformat now_isoformat transport session_id kwargs w
       = (Raise e, log q w1))
  ∧ (∀ session_id u ep payment_data kwargs w w1 m e,
       kwargs !! "merchant_url" = Some (VStr u) → u ≠ "" →
       discover transport u (with_client w) = (Ok m, w1) →
       MerchantProfile.rest_endpoint m = VStr ep →
       let q := wire_request POST
                  (rstrip_slash ep +:+ "/checkout/" +:+ session_id +:+ "/complete") w
                  (Some (VDict (delete "merchant_url" kwargs
                                ∪ {["payment" := payment_data]}))) in
       wire_failure (transport (sent w1) q) = Some e →
       complete_checkout transport session_id payment_data kwargs w
       = (Raise e, log q w1))
  ∧ (∀ order_id u ep w w1 m e,
       discover transport u (with_client w) = (Ok m, w1) →
       MerchantProfile.rest_endpoint m = VStr ep →
       let q := wire_request GET (rstrip_slash ep +:+ "/orders/" +:+ order_id) w None in
       wire_failure (transport (sent w1) q) = Some e →
       get_order transport order_id u w = (Raise e, log q w1)).
Proof.
  split; [apply discover_wire_error|].
  split.
  { intros u ep line_items kwargs w w1 m e Hd Hc He q Hf.
    rewrite (create_checkout_run fromisoformat now_isoformat transport
               u ep line_items kwargs w w1 m Hd Hc He).
    cbv zeta. fold q. unfold wire_failure in Hf.
    destruct (transport (sent w1) q) as [r|msg]; [|by injection Hf as <-].
    destruct (is_success r); [done|]. by injection Hf as <-. }
  split.
  { intros session_id u ep kwargs w w1 m e Hk Hu Hd He q Hf.
    rewrite (update_checkout_run fromisoformat now_isoformat transport
               session_id u ep kwargs w w1 m Hk Hu Hd He).
    cbv zeta. fold q. unfold wire_failure in Hf.
    destruct (transport (sent w1) q) as [r|msg]; [|by injection Hf as <-].
    destruct (is_success r); [done|]. by injection Hf as <-. }
  split.
  { intros session_id u ep payment_data kwargs w w1 m e Hk Hu Hd He q Hf.
    rewrite (complete_checkout_run transport
               session_id u ep payment_data kwargs w w1 m Hk Hu Hd He).
    cbv zeta. fold q. unfold wire_failure in Hf.
    destruct (transport (sent w1) q) as [r|msg]; [|by injection Hf as <-].
    destruct (is_success r); [done|]. by injection Hf as <-. }
  intros order_id u ep w w1 m e Hd He q Hf.
  rewrite (get_order_run transport order_id u ep w w1 m Hd He).
  cbv zeta. fold q. unfold wire_failure in Hf.
  destruct (transport (sent w1) q) as [r|msg]; [|by injection Hf as <-].
  destruct (is_success r); [done|]. by injection Hf as <-.
Qed.

End WireErrors.

Lemma wire_errors_by_operation_witness :
  fst (get_order Samples.shop_mismatch_on_call "order-7" Samples.shop_url Samples.w0)
  = Raise (VersionError UCP_VERSION (VStr "2027-01-01")).
Proof.
  pose proof (proj2 (proj2 (proj2 (proj2
    (@wire_errors_by_operation string Samples.iso Samples.clock
       Samples.shop_mismatch_on_call))))
    "order-7" Samples.shop_url "https://shop.example/api/" Samples.w0
    (snd (discover Samples.shop_mismatch_on_call Samples.shop_url
            (with_client Samples.w0)))
    (Samples.shop_profile [Samples.checkout_capability])
    (VersionError UCP_VERSION (VStr "2027-01-01"))) as H.
  cbv zeta in H. rewrite H; [reflexivity| | |]; vm_compute; reflexivity.
Defined.


(** ** Line items *)

(** C8, as stated, fails: for a response whose line item has no quantity,
    [create_checkout] returns a session whose line item has quantity 0. *)
Lemma create_checkout_zero_quantity :
  ∃ s w',
    create_checkout Samples.iso Samples.clock Samples.shop_without_quantity
      Samples.shop_url (VList [VDict {["sku" := VStr "mug"]}]) ∅ Samples.w0
    = (Ok s, w')
    ∧ LineItem.quantity <$> CheckoutSession.line_items s = [VInt 0]
    ∧ forallb (λ li, at_least_one (LineItem.quantity li)) (CheckoutSession.line_items s)
      = false.
Proof. eexists _, _. split; [vm_compute; reflexivity|]. split; reflexivity. Qed.

Section LineItems.

Context {datetime : Type}.
Variable fromisoformat : value → option datetime.
Variable now_isoformat : nat → string.
Variable transport : list Request → Request → Outcome.

Lemma parse_line_item_quantity (entry : value) (li : LineItem.t) :
  parse_line_item entry = Some li →
  ∃ d, entry = VDict d ∧ LineItem.quantity li = dict_get d "quantity" (VInt 0).
Proof.
  destruct entry; try discriminate. simpl. intros [= <-]. eauto.
Qed.

(** A session comes out of a 2xx response only. *)
Lemma create_checkout_inv u line_items kwargs w s w' :
  create_checkout fromisoformat now_isoformat transport u line_items kwargs w
  = (Ok s, w') →
  ∃ hist q resp data w2 hs,
    transport hist q = Responded resp
    ∧ is_success resp = true
    ∧ json resp = Some data
    ∧ _parse_checkout_session fromisoformat now_isoformat data u hs w2 = (Ok s, w').
Proof.
  intros H.
  destruct (discover transport u w) as [[m|e] w1] eqn:Hd.
  2:{ unfold create_checkout in H. unfold bind at 1 in H. by rewrite Hd in H. }
  destruct (has_checkout m) eqn:Hc.
  2:{ unfold create_checkout in H. unfold bind at 1 in H. rewrite Hd in H.
      fold (has_checkout m) in H. by rewrite Hc in H. }
  destruct (MerchantProfile.rest_endpoint m) as [| | |ep| |] eqn:He.
  4:{ rewrite (create_checkout_run fromisoformat now_isoformat transport
                 u ep line_items kwargs w w1 m Hd Hc He) in H.
      cbv zeta in H.
      destruct (transport (sent w1) _) as [resp|msg] eqn:Ht; [|done].
      destruct (is_success resp) eqn:Hs; [|done].
      destruct (json resp) as [data|] eqn:Hj; [|done].
      repeat eexists; eassumption. }
  all: unfold create_checkout in H; unfold bind at 1 in H; rewrite Hd in H;
    fold (has_checkout m) in H; rewrite Hc in H; simpl in H;
    unfold bind at 1 in H; rewrite get_client_eq in H; rewrite He in H;
    by rewrite bind_lift in H.
Qed.

Lemma update_checkout_inv session_id kwargs w s w' :
  update_checkout fromisoformat now_isoformat transport session_id kwargs w
  = (Ok s, w') →
  ∃ hist q resp data w2 u hs,
    transport hist q = Responded resp
    ∧ is_success resp = true
    ∧ json resp = Some data
    ∧ _parse_checkout_session fromisoformat now_isoformat data u hs w2 = (Ok s, w').
Proof.
  intros H.
  destruct (merchant_url_cases kwargs) as [(u & Hk & Hu)|Hx].
  2:{ destruct (update_checkout_early fromisoformat now_isoformat transport
                  session_id kwargs w Hx) as [e He]. by rewrite He in H. }
  destruct (discover transport u (with_client w)) as [[m|e] w1] eqn:Hd.
  2:{ unfold update_checkout in H. unfold bind at 1 in H.
      rewrite get_client_eq in H. rewrite Hk in H. simpl in H.
      destruct (String.eqb_spec u "") as [|_]; [done|]. simpl in H.
      unfold bind at 1 in H. unfold bind at 1 in H. by rewrite Hd in H. }
  destruct (MerchantProfile.rest_endpoint m) as [| | |ep| |] eqn:He.
  4:{ rewrite (update_checkout_run fromisoformat now_isoformat transport
                 session_id u ep kwargs w w1 m Hk Hu Hd He) in H.
      cbv zeta in H.
      destruct (transport (sent w1) _) as [resp|msg] eqn:Ht; [|done].
      destruct (is_success resp) eqn:Hs; [|done].
      destruct (json resp) as [data|] eqn:Hj; [|done].
      repeat eexists; eassumption. }
  all: unfold update_checkout in H; unfold bind at 1 in H;
    rewrite get_client_eq in H; rewrite Hk in H; simpl in H;
    (destruct (String.eqb_spec u "") as [|_]; [done|]); simpl in H;
    unfold bind at 1 in H; unfold bind at 1 in H; rewrite Hd in H;
    unfold ret at 1 in H; rewrite He in H; by rewrite bind_lift in H.
Qed.

(** C8, amended: a session [create_checkout] or [update_checkout] returns
    was parsed from a 2xx response, and each of its line items has as
    quantity the [quantity] member of the entry of [line_items] it was made
    from, or 0 when the entry has none; no lower bound is checked. *)
Theorem checkout_line_item_quantities (u session_id : string) (line_items : value)
    (kwargs : gmap string value) (w w' : World) (s : CheckoutSession.t datetime) :
  create_checkout fromisoformat now_isoformat transport u line_items kwargs w
  = (Ok s, w')
  ∨ update_checkout fromisoformat now_isoformat transport session_id kwargs w
    = (Ok s, w') →
  ∃ hist q resp data entries,
    transport hist q = Responded resp
    ∧ is_success resp = true
    ∧ json resp = Some data
    ∧ py_get data "line_items" (VList []) ≫= py_iter = Some entries
    ∧ Forall2 (λ entry li,
                 ∃ d, entry = VDict d
                      ∧ LineItem.quantity li = dict_get d "quantity" (VInt 0))
        entries (CheckoutSession.line_items s).
Proof.
  intros H.
  assert (∃ hist q resp data w2 u' hs,
            transport hist q = Responded resp
            ∧ is_success resp = true
            ∧ json resp = Some data
            ∧ _parse_checkout_session fromisoformat now_isoformat data u' hs w2
              = (Ok s, w'))
    as (hist & q & resp & data & w2 & u' & hs & Ht & Hs & Hj & Hp).
  { destruct H as [H|H].
    - apply create_checkout_inv in H as (hist & q & resp & data & w2 & hs & ?).
      by exists hist, q, resp, data, w2, u, hs.
    - by apply update_checkout_inv in H. }
  apply parse_checkout_session_items in Hp as (entries & He & Hm).
  exists hist, q, resp, data, entries. repeat split; try done.
  apply mapM_Some in Hm.
  eapply Forall2_impl; [exact Hm|]. apply parse_line_item_quantity.
Qed.

End LineItems.

Lemma checkout_line_item_quantities_witness :
  ∃ s w',
    create_checkout Samples.iso Samples.clock Samples.shop_of_three
      Samples.shop_url (VList []) ∅ Samples.w0 = (Ok s, w')
    ∧ ∃ hist q resp data entries,
        Samples.shop_of_three hist q = Responded resp
        ∧ is_success resp = true
        ∧ json resp = Some data
        ∧ py_get data "line_items" (VList []) ≫= py_iter = Some entries
        ∧ Forall2 (λ entry li,
                     ∃ d, entry = VDict d
                          ∧ LineItem.quantity li = dict_get d "quantity" (VInt 0))
            entries (CheckoutSession.line_items s).
Proof.
  eexists _, _. split; [vm_compute; reflexivity|].
  eapply (checkout_line_item_quantities Samples.iso Samples.clock Samples.shop_of_three
            Samples.shop_url "" (VList []) ∅ Samples.w0).
  left. vm_compute. reflexivity.
Defined.

(** ** Negotiation *)

(** C1, as stated, fails: [negotiate] takes no agent capabilities; for a
    merchant with capabilities A and B it returns no capability, where the
    intersection with the agent capabilities B and C is B. *)
Lemma negotiate_ignores_declared_capabilities :
  negotiate Samples.in_order (Samples.profile_named ["A"; "B"]) Samples.w0
  = (Ok (VDict (<["capabilities" := VList []]>
                  (<["payment_handlers" := VList [VStr "com.google.pay"] ]> ∅))),
     Samples.w0)
  ∧ elements (({["B"; "C"]} : gset string) ∩ {["A"; "B"]}) = ["B"].
Proof. split; vm_compute; reflexivity. Qed.

Lemma elem_of_str_set (xs : list value) (names : gset string) (x : string) :
  str_set xs = Some names → x ∈ names ↔ VStr x ∈ xs.
Proof.
  unfold str_set. destruct (forallb hashable xs); [|done]. intros [= <-].
  rewrite elem_of_list_to_set, list_elem_of_omap. split.
  - intros (v & Hv & Hs). destruct v; simplify_eq/=. done.
  - intros Hx. by exists (VStr x).
Qed.

(** C1, amended: for a merchant profile whose capability names and handler
    types are hashable (strings, as both dataclasses declare them, are),
    [negotiate] returns, without touching the world, the capabilities
    [dev.ucp.shopping.checkout] and the handlers [com.google.pay] and
    [dev.ucp.ap2] fixed in its body, each intersected with the merchant's
    capability names and handler types; no name comes twice.  This holds in
    whatever order [list] lists a set. *)
Theorem negotiate_intersection (list_of_set : list value → gset string → list string)
    (mp : MerchantProfile.t) (w : World) :
  list_lists_set list_of_set →
  forallb hashable (Capability.name <$> MerchantProfile.capabilities mp) = true →
  forallb hashable (PaymentHandler.type <$> MerchantProfile.payment_handlers mp) = true →
  ∃ caps hs,
    negotiate list_of_set mp w
    = (Ok (VDict (<["capabilities" := VList (VStr <$> caps)]>
                    (<["payment_handlers" := VList (VStr <$> hs)]> ∅))), w)
    ∧ NoDup caps ∧ NoDup hs
    ∧ (∀ x, x ∈ caps ↔
            x ∈ agent_capabilities
            ∧ ∃ c, c ∈ MerchantProfile.capabilities mp ∧ Capability.name c = VStr x)
    ∧ (∀ x, x ∈ hs ↔
            x ∈ agent_handlers
            ∧ ∃ h, h ∈ MerchantProfile.payment_handlers mp
                   ∧ PaymentHandler.type h = VStr x).
Proof.
  intros Hl Hc Hh. unfold list_lists_set in Hl. unfold negotiate. cbv zeta.
  destruct (str_set (Capability.name <$> MerchantProfile.capabilities mp))
    as [mc|] eqn:Emc; [|unfold str_set in Emc; by rewrite Hc in Emc].
  destruct (str_set (PaymentHandler.type <$> MerchantProfile.payment_handlers mp))
    as [mh|] eqn:Emh; [|unfold str_set in Emh; by rewrite Hh in Emh].
  eexists _, _. split; [reflexivity|].
  split; [rewrite Hl; apply NoDup_elements|].
  split; [rewrite Hl; apply NoDup_elements|].
  split; intros x; rewrite Hl, elem_of_elements, elem_of_intersection.
  - rewrite (elem_of_str_set _ mc x Emc), list_elem_of_fmap.
    split; intros [Ha (c & H1 & H2)]; (split; [done|]); by exists c.
  - rewrite (elem_of_str_set _ mh x Emh), list_elem_of_fmap.
    split; intros [Ha (h & H1 & H2)]; (split; [done|]); by exists h.
Qed.

Lemma negotiate_intersection_witness :
  ∃ caps hs,
    negotiate Samples.in_order
      (Samples.profile_named ["dev.ucp.shopping.checkout"; "B"]) Samples.w0
    = (Ok (VDict (<["capabilities" := VList (VStr <$> caps)]>
                    (<["payment_handlers" := VList (VStr <$> hs)]> ∅))), Samples.w0)
    ∧ NoDup caps ∧ NoDup hs
    ∧ (∀ x, x ∈ caps ↔
            x ∈ agent_capabilities
            ∧ ∃ c, c ∈ MerchantProfile.capabilities
                         (Samples.profile_named ["dev.ucp.shopping.checkout"; "B"])
                   ∧ Capability.name c = VStr x)
    ∧ (∀ x, x ∈ hs ↔
            x ∈ agent_handlers
            ∧ ∃ h, h ∈ MerchantProfile.payment_handlers
                         (Samples.profile_named ["dev.ucp.shopping.checkout"; "B"])
                   ∧ PaymentHandler.type h = VStr x).
Proof.
  apply (negotiate_intersection Samples.in_order
           (Samples.profile_named ["dev.ucp.shopping.checkout"; "B"]) Samples.w0);
    [intros xs s|..]; reflexivity.
Defined.

(** On a merchant with the checkout capability and B, the capabilities
    negotiated are the checkout capability alone. *)
Example negotiate_checkout_and_B :
  negotiate Samples.in_order
    (Samples.profile_named ["dev.ucp.shopping.checkout"; "B"]) Samples.w0
  = (Ok (VDict (<["capabilities" := VList [VStr "dev.ucp.shopping.checkout"] ]>
                  (<["payment_handlers" := VList [VStr "com.google.pay"] ]> ∅))),
     Samples.w0).
Proof. vm_compute. reflexivity. Qed.

(** ** A run of [update_checkout]

    With [merchant_url] and one more keyword argument, on a shop that
    refuses the PATCH: the log holds the PATCH, whose body is the other
    keyword argument alone, over the discovery GET, and the error is the one
    the mapper makes of the response. *)
Example update_checkout_run_sample :
  let r := update_checkout Samples.iso Samples.clock Samples.shop_mismatch_on_call
             "sess-1"
             (<["merchant_url" := VStr Samples.shop_url]> {["note" := VStr "gift"]})
             Samples.w0 in
  fst r = Raise (VersionError UCP_VERSION (VStr "2027-01-01"))
  ∧ (λ q, (method q, url q, body q)) <$> sent (snd r)
    = [(PATCH, "https://shop.example/api/checkout/sess-1",
        Some (VDict {["note" := VStr "gift"]}));
       (GET, "https://shop.example/.well-known/ucp", None)].
Proof. split; vm_compute; reflexivity. Qed.

(** * More of the client

    Properties of the methods beyond the ones above. *)

(** ** How the world moves on *)

Lemma evolves_refl w : evolves 0 w w.
Proof. split; [done|]. split; [done|]. split; [done|]. by exists []. Qed.

Lemma evolves_trans a b w w1 w2 :
  evolves a w w1 → evolves b w1 w2 → evolves (a + b) w w2.
Proof.
  intros (Hu & Hc & Hm & new1 & Hs1 & Hl1 & Hh1) (Hu' & Hc' & Hm' & new2 & Hs2 & Hl2 & Hh2).
  split; [congruence|]. split; [congruence|]. split; [by auto|].
  exists (new2 ++ new1). split; [by rewrite Hs2, Hs1, app_assoc|].
  split; [rewrite length_app; lia|].
  apply Forall_app. split; [|done]. by rewrite <- Hc.
Qed.

Lemma evolves_le a b w w' : a ≤ b → evolves a w w' → evolves b w w'.
Proof.
  intros Hab (Hu & Hc & Hm & new & Hs & Hl & Hh).
  split; [done|]. split; [done|]. split; [done|].
  exists new. split; [done|]. split; [lia|done].
Qed.

Lemma evolves_with_client w : evolves 0 w (with_client w).
Proof.
  split; [done|]. split; [apply client_of_with_client|]. split; [done|].
  by exists [].
Qed.

Lemma evolves_log q w :
  req_headers q = headers (client_of w) → evolves 1 w (log q w).
Proof.
  intros Hq. split; [done|]. split; [done|]. split; [done|].
  exists [q]. split; [done|]. split; [done|]. by constructor.
Qed.

(** Equal but for the clock. *)
Lemma evolves_clock w w' :
  self w' = self w → sent w' = sent w → evolves 0 w w'.
Proof.
  intros Hs Hl. unfold evolves, client_of. rewrite Hs, Hl.
  split; [done|]. split; [done|]. split; [done|]. by exists [].
Qed.

Section Evolution.
Context {datetime : Type}.
Variable fromisoformat : value → option datetime.
Variable now_isoformat : nat → string.
Variable transport : list Request → Request → Outcome.
Variable list_of_set : list value → gset string → list string.

Lemma evolves_discover u w r w' :
  discover transport u w = (r, w') → evolves (misses u w) w w'.
Proof.
  intros H. unfold misses.
  destruct (_merchant_cache (self w) !! u) as [p|] eqn:Hc.
  - rewrite (discover_hit transport u w p Hc) in H. injection H as <- <-.
    apply evolves_refl.
  - rewrite (discover_miss transport u w Hc) in H. cbv zeta in H.
    assert (Hlog : evolves 1 w (log (well_known_request u w) (with_client w))).
    { apply (evolves_trans 0 1 _ (with_client w)); [apply evolves_with_client|].
      apply evolves_log. simpl. by rewrite client_of_with_client. }
    destruct (transport _ _) as [resp|e]; [|by injection H as <- <-].
    destruct (is_success resp); [|by injection H as <- <-].
    destruct (json resp ≫= parse_profile u) as [p|]; [|by injection H as <- <-].
    injection H as <- <-.
    destruct Hlog as (Hu & Hcl & Hm & Hnew).
    split; [done|]. split; [done|]. split; [|done].
    intros k p' Hk. simpl. destruct (decide (u = k)) as [<-|Hne]; [congruence|].
    rewrite lookup_insert_ne by done. by apply Hm in Hk.
Qed.

(** The world [create_checkout] leaves. *)
Lemma create_checkout_world u line_items kwargs w :
  ∃ r w1,
    discover transport u w = (r, w1)
    ∧ let w' := snd (create_checkout fromisoformat now_isoformat transport
                       u line_items kwargs w) in
      w' = w1 ∨ w' = with_client w1
      ∨ ∃ m ep,
          r = Ok m ∧ has_checkout m = true
          ∧ MerchantProfile.rest_endpoint m = VStr ep
          ∧ let q := wire_request POST (rstrip_slash ep +:+ "/checkout") w1
                       (Some (VDict (kwargs ∪ {["line_items" := line_items]}))) in
            self w' = self (with_client w1) ∧ sent w' = q :: sent w1.
Proof.
  destruct (discover transport u w) as [r w1] eqn:Hd. exists r, w1.
  split; [done|]. cbv zeta.
  destruct r as [m|e].
  2:{ left. unfold create_checkout. unfold bind at 1. by rewrite Hd. }
  destruct (has_checkout m) eqn:Hc.
  2:{ left. unfold create_checkout. unfold bind at 1. rewrite Hd.
      fold (has_checkout m). by rewrite Hc. }
  destruct (MerchantProfile.rest_endpoint m) as [| | |ep| |] eqn:He.
  4:{ right. right. exists m, ep. repeat (split; [done|]).
      rewrite (create_checkout_run fromisoformat now_isoformat transport
                 u ep line_items kwargs w w1 m Hd Hc He).
      cbv zeta.
      destruct (transport (sent w1) _) as [resp|msg]; [|done].
      destruct (is_success resp); [|done].
      destruct (json resp) as [data|]; [|done].
      destruct (_parse_checkout_session _ _ _ _ _ _) as [r' w'] eqn:Hp.
      simpl. apply parse_checkout_session_frame in Hp as [Hp1 Hp2].
      by rewrite Hp1, Hp2. }
  all: right; left; unfold create_checkout; unfold bind at 1; rewrite Hd;
    fold (has_checkout m); rewrite Hc; simpl;
    unfold bind at 1; rewrite get_client_eq; rewrite He;
    by rewrite bind_lift.
Qed.

(** The world [update_checkout] leaves. *)
Lemma update_checkout_world session_id kwargs w :
  let w' := snd (update_checkout fromisoformat now_isoformat transport
                   session_id kwargs w) in
  w' = with_client w
  ∨ ∃ u r w1,
      kwargs !! "merchant_url" = Some (VStr u)
      ∧ discover transport u (with_client w) = (r, w1)
      ∧ (w' = w1
         ∨ ∃ m ep,
             r = Ok m ∧ MerchantProfile.rest_endpoint m = VStr ep
             ∧ let q := wire_request PATCH
                          (rstrip_slash ep +:+ "/checkout/" +:+ session_id) w
                          (Some (VDict (delete "merchant_url" kwargs))) in
               self w' = self w1 ∧ sent w' = q :: sent w1).
Proof.
  cbv zeta.
  destruct (merchant_url_cases kwargs) as [(u & Hk & Hu)|Hx].
  2:{ destruct (update_checkout_early fromisoformat now_isoformat transport
                  session_id kwargs w Hx) as [e ->]. by left. }
  right. destruct (discover transport u (with_client w)) as [r w1] eqn:Hd.
  exists u, r, w1. repeat (split; [done|]).
  destruct r as [m|e].
  2:{ left. unfold update_checkout. unfold bind at 1. rewrite get_client_eq.
      rewrite Hk. simpl. destruct (String.eqb_spec u "") as [|_]; [done|]. simpl.
      unfold bind at 1. unfold bind at 1. by rewrite Hd. }
  destruct (MerchantProfile.rest_endpoint m) as [| | |ep| |] eqn:He.
  4:{ right. exists m, ep. repeat (split; [done|]).
      rewrite (update_checkout_run fromisoformat now_isoformat transport
                 session_id u ep kwargs w w1 m Hk Hu Hd He).
      cbv zeta.
      destruct (transport (sent w1) _) as [resp|msg]; [|done].
      destruct (is_success resp); [|done].
      destruct (json resp) as [data|]; [|done].
      destruct (_parse_checkout_session _ _ _ _ _ _) as [r' w'] eqn:Hp.
      simpl. apply parse_checkout_session_frame in Hp as [Hp1 Hp2].
      by rewrite Hp1, Hp2. }
  all: left; unfold update_checkout; unfold bind at 1; rewrite get_client_eq;
    rewrite Hk; simpl; (destruct (String.eqb_spec u "") as [|_]; [done|]); simpl;
    unfold bind at 1; unfold bind at 1; rewrite Hd; unfold ret at 1;
    rewrite He; by rewrite bind_lift.
Qed.

(** The world [complete_checkout] leaves. *)
Lemma complete_checkout_world session_id payment_data kwargs w :
  let w' := snd (complete_checkout transport session_id payment_data kwargs w) in
  w' = with_client w
  ∨ ∃ u r w1,
      kwargs !! "merchant_url" = Some (VStr u)
      ∧ discover transport u (with_client w) = (r, w1)
      ∧ (w' = w1
         ∨ ∃ m ep,
             r = Ok m ∧ MerchantProfile.rest_endpoint m = VStr ep
             ∧ let q := wire_request POST
                          (rstrip_slash ep +:+ "/checkout/" +:+ session_id
                           +:+ "/complete") w
                          (Some (VDict (delete "merchant_url" kwargs
                                        ∪ {["payment" := payment_data]}))) in
               w' = log q w1).
Proof.
  cbv zeta.
  destruct (merchant_url_cases kwargs) as [(u & Hk & Hu)|Hx].
  2:{ destruct (complete_checkout_early transport
                  session_id payment_data kwargs w Hx) as [e ->]. by left. }
  right. destruct (discover transport u (with_client w)) as [r w1] eqn:Hd.
  exists u, r, w1. repeat (split; [done|]).
  destruct r as [m|e].
  2:{ left. unfold complete_checkout. unfold bind at 1. rewrite get_client_eq.
      rewrite Hk. simpl. destruct (String.eqb_spec u "") as [|_]; [done|]. simpl.
      unfold bind at 1. unfold bind at 1. by rewrite Hd. }
  destruct (MerchantProfile.rest_endpoint m) as [| | |ep| |] eqn:He.
  4:{ right. exists m, ep. repeat (split; [done|]).
      rewrite (complete_checkout_run transport
                 session_id u ep payment_data kwargs w w1 m Hk Hu Hd He).
      cbv zeta.
      destruct (transport (sent w1) _) as [resp|msg]; [|done].
      destruct (is_success resp); [|done].
      destruct (json resp) as [data|]; [|done].
      destruct (parse_order data _) as [r' w'] eqn:Hp.
      by apply parse_order_frame in Hp as ->. }
  all: left; unfold complete_checkout; unfold bind at 1; rewrite get_client_eq;
    rewrite Hk; simpl; (destruct (String.eqb_spec u "") as [|_]; [done|]); simpl;
    unfold bind at 1; unfold bind at 1; rewrite Hd; unfold ret at 1;
    rewrite He; by rewrite bind_lift.
Qed.

(** The world [get_order] leaves. *)
Lemma get_order_world order_id u w :
  ∃ r w1,
    discover transport u (with_client w) = (r, w1)
    ∧ let w' := snd (get_order transport order_id u w) in
      w' = w1
      ∨ ∃ m ep,
          r = Ok m ∧ MerchantProfile.rest_endpoint m = VStr ep
          ∧ w' = log (wire_request GET (rstrip_slash ep +:+ "/orders/" +:+ order_id)
                        w None) w1.
Proof.
  destruct (discover transport u (with_client w)) as [r w1] eqn:Hd. exists r, w1.
  split; [done|]. cbv zeta.
  destruct r as [m|e].
  2:{ left. unfold get_order. unfold bind at 1. rewrite get_client_eq.
      unfold bind at 1. by rewrite Hd. }
  destruct (MerchantProfile.rest_endpoint m) as [| | |ep| |] eqn:He.
  4:{ right. exists m, ep. repeat (split; [done|]).
      rewrite (get_order_run transport order_id u ep w w1 m Hd He).
      cbv zeta.
      destruct (transport (sent w1) _) as [resp|msg]; [|done].
      destruct (is_success resp); [|done].
      destruct (json resp) as [data|]; [|done].
      destruct (parse_order data _) as [r' w'] eqn:Hp.
      by apply parse_order_frame in Hp as ->. }
  all: left; unfold get_order; unfold bind at 1; rewrite get_client_eq;
    unfold bind at 1; rewrite Hd; rewrite He; by rewrite bind_lift.
Qed.

Lemma evolves_own_call q w1 w' :
  req_headers q = headers (client_of w1) →
  self w' = self w1 → sent w' = q :: sent w1 → evolves 1 w1 w'.
Proof.
  intros Hq Hs Hl.
  apply (evolves_trans 1 0 _ (log q w1)); [by apply evolves_log|].
  by apply evolves_clock.
Qed.

Lemma evolves_create_checkout u line_items kwargs w :
  evolves (misses u w + 1) w
    (snd (create_checkout fromisoformat now_isoformat transport u line_items kwargs w)).
Proof.
  destruct (create_checkout_world u line_items kwargs w) as (r & w1 & Hd & Hw).
  apply evolves_discover in Hd. cbv zeta in Hw.
  destruct Hw as [->|[->|(m & ep & _ & _ & _ & Hs & Hl)]].
  - apply (evolves_le (misses u w)); [lia|done].
  - apply (evolves_le (misses u w + 0)); [lia|].
    eapply evolves_trans; [exact Hd|apply evolves_with_client].
  - eapply evolves_trans; [exact Hd|].
    apply (evolves_trans 0 1 _ (with_client w1)); [apply evolves_with_client|].
    eapply evolves_own_call; [|done|exact Hl]. simpl. by rewrite client_of_with_client.
Qed.

Lemma evolves_update_checkout session_id kwargs w :
  evolves (call_budget (CallUpdateCheckout session_id kwargs) w) w
    (snd (update_checkout fromisoformat now_isoformat transport session_id kwargs w)).
Proof.
  destruct (update_checkout_world session_id kwargs w)
    as [->|(u & r & w1 & Hk & Hd & Hw)].
  { eapply evolves_le; [|apply evolves_with_client]. lia. }
  simpl. rewrite Hk.
  apply evolves_discover in Hd.
  assert (Hd' : evolves (misses u w) w w1).
  { apply (evolves_trans 0 _ _ (with_client w)); [apply evolves_with_client|done]. }
  destruct Hw as [->|(m & ep & _ & _ & Hs & Hl)].
  - apply (evolves_le (misses u w)); [lia|done].
  - eapply evolves_trans; [exact Hd'|].
    eapply evolves_own_call; [|done|exact Hl]. simpl.
    by destruct Hd' as (_ & -> & _).
Qed.

Lemma evolves_complete_checkout session_id payment_data kwargs w :
  evolves (call_budget (CallCompleteCheckout session_id payment_data kwargs) w) w
    (snd (complete_checkout transport session_id payment_data kwargs w)).
Proof.
  destruct (complete_checkout_world session_id payment_data kwargs w)
    as [->|(u & r & w1 & Hk & Hd & Hw)].
  { eapply evolves_le; [|apply evolves_with_client]. lia. }
  simpl. rewrite Hk.
  apply evolves_discover in Hd.
  assert (Hd' : evolves (misses u w) w w1).
  { apply (evolves_trans 0 _ _ (with_client w)); [apply evolves_with_client|done]. }
  destruct Hw as [->|(m & ep & _ & _ & ->)].
  - apply (evolves_le (misses u w)); [lia|done].
  - eapply evolves_trans; [exact Hd'|].
    apply evolves_log. simpl. by destruct Hd' as (_ & -> & _).
Qed.

Lemma evolves_get_order order_id u w :
  evolves (misses u w + 1) w (snd (get_order transport order_id u w)).
Proof.
  destruct (get_order_world order_id u w) as (r & w1 & Hd & Hw).
  apply evolves_discover in Hd. cbv zeta in Hw.
  assert (Hd' : evolves (misses u w) w w1).
  { apply (evolves_trans 0 _ _ (with_client w)); [apply evolves_with_client|done]. }
  destruct Hw as [->|(m & ep & _ & _ & ->)].
  - apply (evolves_le (misses u w)); [lia|done].
  - eapply evolves_trans; [exact Hd'|].
    apply evolves_log. simpl. by destruct Hd' as (_ & -> & _).
Qed.

Lemma negotiate_world mp w : snd (negotiate list_of_set mp w) = w.
Proof.
  unfold negotiate. cbv zeta. rewrite bind_lift. destruct (str_set _); [|done].
  rewrite bind_lift. by destruct (str_set _).
Qed.

Lemma evolves_call (c : Call) (w : World) :
  c ≠ CallClose →
  evolves (call_budget c w) w (run_call fromisoformat now_isoformat transport list_of_set c w).
Proof.
  intros Hc. destruct c as [u|mp|u items kwargs|sid kwargs|sid pd kwargs|oid u|]; simpl.
  - destruct (discover transport u w) as [r w'] eqn:Hd. simpl.
    by apply evolves_discover in Hd.
  - rewrite negotiate_world. apply evolves_refl.
  - apply evolves_create_checkout.
  - apply evolves_update_checkout.
  - apply evolves_complete_checkout.
  - apply evolves_get_order.
  - done.
Qed.
End Evolution.

(** ** Calls in sequence *)

Lemma close_world (w : World) : snd (close w) = set_http_client None w.
Proof. by destruct w as [[a [c|] m] s k]. Qed.

Lemma call_budget_le (c : Call) (w : World) : call_budget c w ≤ 2.
Proof.
  destruct c; simpl; unfold misses;
    repeat match goal with
           | |- context [match ?x with _ => _ end] => destruct x
           end; lia.
Qed.

Section CallSequences.

Context {datetime : Type}.
Variable fromisoformat : value → option datetime.
Variable now_isoformat : nat → string.
Variable transport : list Request → Request → Outcome.
Variable list_of_set : list value → gset string → list string.

(** X1: a call issues at most its budget of wire calls, which is at most
    two: one for discovery, unless the merchant is cached, and one of its
    own, none for [discover], [negotiate] and [close]; a call that fails is
    not tried again. *)
Theorem call_wire_budget (c : Call) (w : World) :
  ∃ new,
    sent (run_call fromisoformat now_isoformat transport list_of_set c w) = new ++ sent w
    ∧ length new ≤ call_budget c w
    ∧ call_budget c w ≤ 2.
Proof.
  assert (∃ new,
    sent (run_call fromisoformat now_isoformat transport list_of_set c w) = new ++ sent w
    ∧ length new ≤ call_budget c w) as (new & Hs & Hl).
  { destruct c as [u|mp|u items kwargs|sid kwargs|sid pd kwargs|oid u|].
    7:{ exists []. simpl. by rewrite close_world. }
    all: match goal with
         | |- context [run_call _ _ _ _ ?c ?w0] =>
             destruct (evolves_call fromisoformat now_isoformat transport list_of_set c w0)
               as (_ & _ & _ & new & Hs & Hl & _); [done|]
         end; by exists new. }
  exists new. split; [done|]. split; [done|]. apply call_budget_le.
Qed.

Lemma run_calls_cons (c : Call) (cs : list Call) (w : World) :
  run_calls fromisoformat now_isoformat transport list_of_set (c :: cs) w
  = run_calls fromisoformat now_isoformat transport list_of_set cs
      (run_call fromisoformat now_isoformat transport list_of_set c w).
Proof. done. Qed.

Lemma run_call_cache (c : Call) (w : World) (k : string) (p : MerchantProfile.t) :
  _merchant_cache (self w) !! k = Some p →
  _merchant_cache (self (run_call fromisoformat now_isoformat transport list_of_set c w)) !! k
  = Some p.
Proof.
  intros Hk. destruct c as [u|mp|u items kwargs|sid kwargs|sid pd kwargs|oid u|].
  7:{ simpl. by rewrite close_world. }
  all: match goal with
       | |- context [run_call _ _ _ _ ?c ?w0] =>
           destruct (evolves_call fromisoformat now_isoformat transport list_of_set c w0)
             as (_ & _ & Hm & _); [done|]
       end; by apply Hm.
Qed.

(** X2: no sequence of calls removes or replaces an entry of the merchant
    cache: what is cached for a URL stays cached for it, through [close]
    too. *)
Theorem cache_entries_persist (cs : list Call) (w : World) (k : string)
    (p : MerchantProfile.t) :
  _merchant_cache (self w) !! k = Some p →
  _merchant_cache (self (run_calls fromisoformat now_isoformat transport list_of_set cs w)) !! k
  = Some p.
Proof.
  revert w. induction cs as [|c cs IH]; intros w Hk; [done|].
  rewrite run_calls_cons. apply IH. by apply run_call_cache.
Qed.

Lemma run_call_headers (c : Call) (w : World) :
  client_ok w →
  let w' := run_call fromisoformat now_isoformat transport list_of_set c w in
  client_ok w'
  ∧ agent_profile_url (self w') = agent_profile_url (self w)
  ∧ ∃ new, sent w' = new ++ sent w
           ∧ Forall (λ q, req_headers q
                          = headers (new_client (agent_profile_url (self w)))) new.
Proof.
  intros Hok. cbv zeta.
  destruct c as [u|mp|u items kwargs|sid kwargs|sid pd kwargs|oid u|].
  7:{ simpl. rewrite close_world. split; [done|]. split; [done|]. by exists []. }
  all: match goal with
       | |- context [run_call _ _ _ _ ?c ?w0] =>
           destruct (evolves_call fromisoformat now_isoformat transport list_of_set c w0)
             as (Hu & Hc & _ & new & Hs & _ & Hh); [done|]
       end;
    (split; [unfold client_ok; by rewrite Hc, Hu|]); (split; [done|]);
    exists new; (split; [done|]); by rewrite <- Hok.
Qed.

(** X3: from a world whose HTTP client, if any, is the one [_get_client]
    builds (the world [UCPClient(...)] starts in is one), every request any
    sequence of calls issues carries the two default headers, [UCP-Agent]
    with the agent profile URL and [Content-Type]; the URL never changes. *)
Theorem requests_carry_agent_headers (cs : list Call) (w : World) :
  client_ok w →
  client_ok (run_calls fromisoformat now_isoformat transport list_of_set cs w)
  ∧ agent_profile_url (self (run_calls fromisoformat now_isoformat transport list_of_set cs w))
    = agent_profile_url (self w)
  ∧ ∃ new,
      sent (run_calls fromisoformat now_isoformat transport list_of_set cs w) = new ++ sent w
      ∧ Forall (λ q, req_headers q
                     = [("UCP-Agent",
                         "profile=" +:+ String "034" (agent_profile_url (self w))
                                    +:+ String "034" "");
                        ("Content-Type", "application/json")]) new.
Proof.
  revert w. induction cs as [|c cs IH]; intros w Hok.
  { split; [done|]. split; [done|]. by exists []. }
  rewrite run_calls_cons.
  destruct (run_call_headers c w Hok) as (Hok1 & Hu1 & new1 & Hs1 & Hh1).
  destruct (IH _ Hok1) as (Hok2 & Hu2 & new2 & Hs2 & Hh2).
  split; [done|]. split; [congruence|].
  exists (new2 ++ new1). split; [by rewrite Hs2, Hs1, app_assoc|].
  apply Forall_app. split; [|done]. by rewrite <- Hu1.
Qed.

(** X4: [close] drops the HTTP client and keeps the merchant cache: a
    merchant cached before [close] is still returned after it, with no wire
    call and without a new HTTP client being made. *)
Theorem close_keeps_cache (u : string) (p : MerchantProfile.t) (w : World) :
  _merchant_cache (self w) !! u = Some p →
  _http_client (self (snd (close w))) = None
  ∧ sent (snd (close w)) = sent w
  ∧ discover transport u (snd (close w)) = (Ok p, snd (close w)).
Proof.
  intros Hc. rewrite close_world. split; [done|]. split; [done|].
  by apply discover_hit.
Qed.

End CallSequences.

Lemma cache_entries_persist_witness :
  _merchant_cache
    (self (run_calls Samples.iso Samples.clock Samples.shop_mismatch_on_call Samples.in_order
             [CallClose; CallGetOrder "order-7" Samples.shop_url;
              CallDiscover "https://other.example"]
             (snd (discover Samples.shop_only_discovery Samples.shop_url Samples.w0))))
    !! Samples.shop_url
  = Some (Samples.shop_profile [Samples.checkout_capability]).
Proof.
  apply (cache_entries_persist Samples.iso Samples.clock Samples.shop_mismatch_on_call
           Samples.in_order).
  vm_compute. reflexivity.
Defined.

Lemma requests_carry_agent_headers_witness :
  ∃ new,
    sent (run_calls Samples.iso Samples.clock Samples.shop_mismatch_on_call Samples.in_order
            [CallGetOrder "order-7" Samples.shop_url; CallClose;
             CallUpdateCheckout "sess-1" {["merchant_url" := VStr Samples.shop_url]}]
            Samples.w0)
    = new ++ sent Samples.w0
    ∧ Forall (λ q, req_headers q
                   = [("UCP-Agent",
                       "profile=" +:+ String "034" Samples.agent_url
                                  +:+ String "034" "");
                      ("Content-Type", "application/json")]) new.
Proof.
  refine (proj2 (proj2 (requests_carry_agent_headers Samples.iso Samples.clock
                          Samples.shop_mismatch_on_call Samples.in_order _
                          Samples.w0 _))).
  reflexivity.
Defined.

Lemma close_keeps_cache_witness :
  discover Samples.shop_down Samples.shop_url
    (snd (close (snd (discover Samples.shop_only_discovery Samples.shop_url Samples.w0))))
  = (Ok (Samples.shop_profile [Samples.checkout_capability]),
     snd (close (snd (discover Samples.shop_only_discovery Samples.shop_url Samples.w0)))).
Proof.
  refine (proj2 (proj2 (close_keeps_cache Samples.shop_down Samples.shop_url _ _ _))).
  vm_compute. reflexivity.
Defined.

(** ** Orders and sessions *)

Section Orders.

Context {datetime : Type}.
Variable fromisoformat : value → option datetime.
Variable now_isoformat : nat → string.
Variable transport : list Request → Request → Outcome.

Lemma parse_order_dict (d : gmap string value) (w : World) :
  parse_order (VDict d) w
  = (Ok (Order.mk (dict_get d "id" (VStr "")) (dict_get d "status" (VStr "unknown"))
           (dict_get d "confirmation_number" VNone) (dict_get d "total_cents" (VInt 0))
           (dict_get d "currency" (VStr "USD"))), w).
Proof. done. Qed.

Lemma parse_order_not_dict (data : value) (w : World) :
  (∀ d, data ≠ VDict d) → parse_order data w = (Raise PythonError, w).
Proof. intros H. destruct data; try done. by destruct (H d). Qed.

(** X5: on a 2xx response [get_order] builds the order from the body when
    the body is a JSON object, whatever members it has: a missing [id],
    [status], [confirmation_number], [total_cents] or [currency] becomes the
    empty string, [unknown], [None], 0 or [USD]; when the body is no JSON or
    no object, [get_order] raises an exception that is no [UCPError], after
    the wire call. *)
Theorem get_order_by_body (order_id u ep : string) (w w1 : World)
    (m : MerchantProfile.t) (resp : Response) :
  discover transport u (with_client w) = (Ok m, w1) →
  MerchantProfile.rest_endpoint m = VStr ep →
  transport (sent w1)
    (wire_request GET (rstrip_slash ep +:+ "/orders/" +:+ order_id) w None)
  = Responded resp →
  is_success resp = true →
  get_order transport order_id u w
  = (match json resp with
     | Some (VDict d) =>
         Ok (Order.mk (dict_get d "id" (VStr "")) (dict_get d "status" (VStr "unknown"))
               (dict_get d "confirmation_number" VNone)
               (dict_get d "total_cents" (VInt 0))
               (dict_get d "currency" (VStr "USD")))
     | _ => Raise PythonError
     end,
     log (wire_request GET (rstrip_slash ep +:+ "/orders/" +:+ order_id) w None) w1).
Proof.
  intros Hd He Ht Hs.
  rewrite (get_order_run transport order_id u ep w w1 m Hd He). cbv zeta.
  rewrite Ht, Hs. destruct (json resp) as [data|]; [|done].
  by destruct data.
Qed.

(** X6: the body [complete_checkout] posts holds under [payment] the
    payment data, unless a keyword argument is itself named [payment]: then
    it holds that argument, and the payment data is not sent. *)
Theorem complete_checkout_payment_member (session_id u ep : string) (payment_data : value)
    (kwargs : gmap string value) (w w1 : World) (m : MerchantProfile.t) :
  kwargs !! "merchant_url" = Some (VStr u) → u ≠ "" →
  discover transport u (with_client w) = (Ok m, w1) →
  MerchantProfile.rest_endpoint m = VStr ep →
  ∃ b,
    sent (snd (complete_checkout transport session_id payment_data kwargs w))
    = wire_request POST
        (rstrip_slash ep +:+ "/checkout/" +:+ session_id +:+ "/complete") w
        (Some (VDict b)) :: sent w1
    ∧ b !! "payment" = Some (default payment_data (kwargs !! "payment")).
Proof.
  intros Hk Hu Hd He.
  exists (delete "merchant_url" kwargs ∪ {["payment" := payment_data]}). split.
  - rewrite (complete_checkout_run transport session_id u ep payment_data kwargs
               w w1 m Hk Hu Hd He). cbv zeta.
    destruct (transport (sent w1) _) as [resp|msg]; [|done].
    destruct (is_success resp); [|done].
    destruct (json resp) as [data|]; [|done].
    destruct (parse_order data _) as [r' w'] eqn:Hp.
    by apply parse_order_frame in Hp as ->.
  - destruct (kwargs !! "payment") as [v|] eqn:Hp; simpl.
    + apply lookup_union_Some_l. by rewrite lookup_delete_ne.
    + rewrite lookup_union_r; [apply lookup_singleton_eq|].
      by rewrite lookup_delete_ne.
Qed.

(** X7: [update_checkout], [complete_checkout] and [get_order] issue their
    wire call for every discovered merchant with a [str] endpoint: unlike
    [create_checkout] they never look at the capabilities. *)
Theorem calls_without_capability_gate (session_id order_id u ep : string)
    (payment_data : value) (kwargs : gmap string value) (w w1 : World)
    (m : MerchantProfile.t) :
  discover transport u (with_client w) = (Ok m, w1) →
  MerchantProfile.rest_endpoint m = VStr ep →
  sent (snd (get_order transport order_id u w))
  = wire_request GET (rstrip_slash ep +:+ "/orders/" +:+ order_id) w None :: sent w1
  ∧ (kwargs !! "merchant_url" = Some (VStr u) → u ≠ "" →
     sent (snd (update_checkout fromisoformat now_isoformat transport
                  session_id kwargs w))
     = wire_request PATCH (rstrip_slash ep +:+ "/checkout/" +:+ session_id) w
         (Some (VDict (delete "merchant_url" kwargs))) :: sent w1
     ∧ sent (snd (complete_checkout transport session_id payment_data kwargs w))
       = wire_request POST
           (rstrip_slash ep +:+ "/checkout/" +:+ session_id +:+ "/complete") w
           (Some (VDict (delete "merchant_url" kwargs ∪ {["payment" := payment_data]})))
         :: sent w1).
Proof.
  intros Hd He. split; [|intros Hk Hu; split].
  - rewrite (get_order_run transport order_id u ep w w1 m Hd He). cbv zeta.
    destruct (transport (sent w1) _) as [resp|msg]; [|done].
    destruct (is_success resp); [|done].
    destruct (json resp) as [data|]; [|done].
    destruct (parse_order data _) as [r' w'] eqn:Hp.
    by apply parse_order_frame in Hp as ->.
  - rewrite (update_checkout_run fromisoformat now_isoformat transport
               session_id u ep kwargs w w1 m Hk Hu Hd He). cbv zeta.
    destruct (transport (sent w1) _) as [resp|msg]; [|done].
    destruct (is_success resp); [|done].
    destruct (json resp) as [data|]; [|done].
    destruct (_parse_checkout_session _ _ _ _ _ _) as [r' w'] eqn:Hp.
    simpl. by apply parse_checkout_session_frame in Hp as [_ ->].
  - rewrite (complete_checkout_run transport session_id u ep payment_data kwargs
               w w1 m Hk Hu Hd He). cbv zeta.
    destruct (transport (sent w1) _) as [resp|msg]; [|done].
    destruct (is_success resp); [|done].
    destruct (json resp) as [data|]; [|done].
    destruct (parse_order data _) as [r' w'] eqn:Hp.
    by apply parse_order_frame in Hp as ->.
Qed.

(** X8: a falsy [merchant_url] counts as none: with the empty string,
    [None], 0, [False], an empty list or an empty dict under [merchant_url],
    [update_checkout] and [complete_checkout] raise [invalid_request] with no
    wire call, as they do without the keyword. *)
Theorem falsy_merchant_url_is_missing (session_id : string) (payment_data : value)
    (kwargs : gmap string value) (w : World) :
  truthy (default VNone (kwargs !! "merchant_url")) = false →
  update_checkout fromisoformat now_isoformat transport session_id kwargs w
  = (Raise (UCPError_ (VStr "invalid_request")
              (VStr "merchant_url required for update") (VDict ∅)),
     with_client w)
  ∧ complete_checkout transport session_id payment_data kwargs w
    = (Raise (UCPError_ (VStr "invalid_request")
                (VStr "merchant_url required for completion") (VDict ∅)),
       with_client w)
  ∧ sent (with_client w) = sent w.
Proof.
  intros H. split; [|split; [|done]].
  - unfold update_checkout. unfold bind at 1. rewrite get_client_eq. by rewrite H.
  - unfold complete_checkout. unfold bind at 1. rewrite get_client_eq. by rewrite H.
Qed.

End Orders.

Lemma get_order_by_body_witness :
  fst (get_order Samples.shop_with_order "order-7" Samples.shop_url Samples.w0)
  = Ok (Order.mk (VStr "ord-1") (VStr "unknown") VNone (VInt 0) (VStr "USD")).
Proof.
  rewrite (get_order_by_body Samples.shop_with_order "order-7" Samples.shop_url
             "https://shop.example/api/" Samples.w0 Samples.w_shop
             (Samples.shop_profile [Samples.checkout_capability])
             Samples.order_with_id_only);
    [reflexivity|vm_compute; reflexivity..].
Defined.

Lemma complete_checkout_payment_member_witness :
  ∃ b,
    sent (snd (complete_checkout Samples.shop_mismatch_on_call "sess-1"
                 (VDict {["handler_id" := VStr "gp"]})
                 (<["merchant_url" := VStr Samples.shop_url]>
                    {["payment" := VStr "other"]})
                 Samples.w0))
    = wire_request POST
        (rstrip_slash "https://shop.example/api/" +:+ "/checkout/" +:+ "sess-1"
         +:+ "/complete") Samples.w0
        (Some (VDict b)) :: sent Samples.w_shop
    ∧ b !! "payment"
      = Some (default (VDict {["handler_id" := VStr "gp"]})
                ((<["merchant_url" := VStr Samples.shop_url]>
                    {["payment" := VStr "other"]} : gmap string value) !! "payment")).
Proof.
  apply (complete_checkout_payment_member Samples.shop_mismatch_on_call "sess-1"
           Samples.shop_url "https://shop.example/api/"
           (VDict {["handler_id" := VStr "gp"]})
           (<["merchant_url" := VStr Samples.shop_url]> {["payment" := VStr "other"]})
           Samples.w0 Samples.w_shop
           (Samples.shop_profile [Samples.checkout_capability]));
    [reflexivity|discriminate|vm_compute; reflexivity|reflexivity].
Defined.

Lemma calls_without_capability_gate_witness :
  sent (snd (get_order Samples.shop_without_checkout_mismatch "order-7"
               Samples.shop_url Samples.w0))
  = wire_request GET (rstrip_slash "https://shop.example/api/" +:+ "/orders/" +:+ "order-7")
      Samples.w0 None
    :: sent Samples.w_shop_without_checkout.
Proof.
  refine (proj1 (calls_without_capability_gate Samples.iso Samples.clock
                   Samples.shop_without_checkout_mismatch "sess-1" "order-7"
                   Samples.shop_url "https://shop.example/api/" VNone ∅
                   Samples.w0 Samples.w_shop_without_checkout
                   (Samples.shop_profile []) _ _));
    [vm_compute; reflexivity|reflexivity].
Defined.

Lemma falsy_merchant_url_is_missing_witness :
  update_checkout Samples.iso Samples.clock Samples.shop_down "sess-1"
    {["merchant_url" := VStr ""]} Samples.w0
  = (Raise (UCPError_ (VStr "invalid_request")
              (VStr "merchant_url required for update") (VDict ∅)),
     with_client Samples.w0).
Proof.
  refine (proj1 (falsy_merchant_url_is_missing Samples.iso Samples.clock
                   Samples.shop_down "sess-1" VNone _ Samples.w0 _)).
  reflexivity.
Defined.

(** ** More of the error mapper *)

(** X9: a JSON object body with no [error] member, or whose [error] object
    has no [code], is not an unparsed body: the error gets the code
    [unknown_error], whatever the status code, and the message and details
    of the [error] object, [Unknown error] and no details where it has
    none. *)
Theorem handle_error_response_defaults (r : Response) (d e : gmap string value) :
  json r = Some (VDict d) →
  dict_get d "error" (VDict ∅) = VDict e →
  e !! "code" = None →
  _handle_error_response r
  = UCPError_ (VStr "unknown_error") (dict_get e "message" (VStr "Unknown error"))
      (py_or (dict_get e "details" (VDict ∅)) (VDict ∅)).
Proof.
  intros Hj He Hc. unfold _handle_error_response, error_payload.
  assert (Hcode : dict_get e "code" (VStr "unknown_error") = VStr "unknown_error").
  { unfold dict_get. by rewrite Hc. }
  rewrite Hj. simpl. rewrite He. simpl. by rewrite !Hcode.
Qed.

(** X10: when the code is [version_mismatch] or [capability_not_supported]
    and the [details] member is no object, the mapper raises an exception
    that is no [UCPError]. *)
Theorem handle_error_response_details_not_object (r : Response)
    (d e : gmap string value) (code : string) (details : value) :
  json r = Some (VDict d) →
  d !! "error" = Some (VDict e) →
  e !! "code" = Some (VStr code) →
  code = "version_mismatch" ∨ code = "capability_not_supported" →
  e !! "details" = Some details →
  (∀ x, details ≠ VDict x) →
  _handle_error_response r = PythonError.
Proof.
  intros Hj He Hc Hcode Hd Hnd.
  assert (Hp : error_payload r
               = Some (VStr code, dict_get e "message" (VStr "Unknown error"), details)).
  { unfold error_payload. rewrite Hj. simpl. unfold dict_get. rewrite He. simpl.
    unfold dict_get. by rewrite Hc, Hd. }
  unfold _handle_error_response. rewrite Hp.
  destruct Hcode as [-> | ->]; simpl; destruct details as [| | | | |x]; try done;
    by destruct (Hnd x).
Qed.

Lemma handle_error_response_defaults_witness :
  _handle_error_response Samples.empty_object_404
  = UCPError_ (VStr "unknown_error") (VStr "Unknown error") (VDict ∅).
Proof.
  etransitivity;
    [apply (handle_error_response_defaults Samples.empty_object_404 ∅ ∅); reflexivity
    |vm_compute; reflexivity].
Defined.

Lemma handle_error_response_details_not_object_witness :
  _handle_error_response Samples.mismatch_null_details = PythonError.
Proof.
  apply (handle_error_response_details_not_object Samples.mismatch_null_details
           {["error" := VDict (<["code" := VStr "version_mismatch"]>
                                 {["details" := VNone]})]}
           (<["code" := VStr "version_mismatch"]> {["details" := VNone]})
           "version_mismatch" VNone);
    [reflexivity|reflexivity|reflexivity|by left|reflexivity|discriminate].
Defined.

(** ** Trailing slashes *)

Lemma append_slash_nonempty (t : string) : t +:+ "/" ≠ "".
Proof. by destruct t. Qed.

Lemma rstrip_slash_append_slash (s : string) : rstrip_slash (s +:+ "/") = rstrip_slash s.
Proof.
  induction s as [|a s IH]; [done|].
  simpl. by rewrite IH.
Qed.

(** X11: [rstrip('/')], as the URLs are built with it, takes off the
    trailing slashes and nothing else: the string is what is left followed by
    slashes only, and what is left ends in no slash. *)
Theorem rstrip_slash_spec (s : string) :
  (∃ n, s = rstrip_slash s +:+ slashes n)
  ∧ (∀ t, rstrip_slash s ≠ t +:+ "/")
  ∧ rstrip_slash (rstrip_slash s) = rstrip_slash s
  ∧ rstrip_slash (s +:+ "/") = rstrip_slash s.
Proof.
  assert (H : (∃ n, s = rstrip_slash s +:+ slashes n) ∧ (∀ t, rstrip_slash s ≠ t +:+ "/")).
  { induction s as [|a s [[n Hn] Ht]].
    { split; [by exists 0|]. intros t H. symmetry in H. by apply append_slash_nonempty in H. }
    simpl. destruct (Ascii.eqb_spec a "/") as [->|Ha]; simpl.
    - destruct (String.eqb_spec (rstrip_slash s) "") as [He|He]; simpl.
      + split.
        * exists (S n). rewrite He in Hn. rewrite Hn. reflexivity.
        * intros t H. symmetry in H. by apply append_slash_nonempty in H.
      + split.
        * exists n.
          change (String "/" (rstrip_slash s) +:+ slashes n)
            with (String "/" (rstrip_slash s +:+ slashes n)).
          by rewrite <- Hn.
        * intros [|b t] H.
          -- change (EmptyString +:+ "/") with "/" in H. by injection H.
          -- change (String b t +:+ "/") with (String b (t +:+ "/")) in H.
             injection H as _ H. by apply (Ht t).
    - split.
      + exists n.
        change (String a (rstrip_slash s) +:+ slashes n)
          with (String a (rstrip_slash s +:+ slashes n)).
        by rewrite <- Hn.
      + intros [|b t] H.
        * change (EmptyString +:+ "/") with "/" in H. by injection H.
        * change (String b t +:+ "/") with (String b (t +:+ "/")) in H.
          injection H as _ H. by apply (Ht t). }
  destruct H as [H1 H2]. split; [done|]. split; [done|].
  split; [|apply rstrip_slash_append_slash].
  clear H1. induction s as [|a s IH]; [done|].
  simpl. destruct (Ascii.eqb a "/" && String.eqb (rstrip_slash s) "") eqn:E; [done|].
  simpl. rewrite IH.
  - by rewrite E.
  - intros t Ht. simpl in H2. rewrite E in H2. apply (H2 (String a t)).
    change (String a t +:+ "/") with (String a (t +:+ "/")). by rewrite Ht.
Qed.

(** ** More of discovery *)

Lemma append_slash_ne (u : string) : u ≠ u +:+ "/".
Proof.
  induction u as [|a u IH]; [done|].
  change (String a u +:+ "/") with (String a (u +:+ "/")). by intros [= H].
Qed.

Section MoreDiscovery.

Variable transport : list Request → Request → Outcome.

(** X12: a 2xx discovery response whose body is a JSON object with no
    [ucp] and no [merchant] member is accepted: the profile has the name
    [Unknown], no capability, no payment handler, and as endpoint the
    merchant URL as it was passed; it is cached like any other. *)
Theorem discover_defaults (u : string) (w : World) (resp : Response)
    (d : gmap string value) :
  _merchant_cache (self w) !! u = None →
  transport (sent w) (well_known_request u w) = Responded resp →
  is_success resp = true →
  json resp = Some (VDict d) →
  d !! "ucp" = None → d !! "merchant" = None →
  discover transport u w
  = (Ok (default_profile u),
     set_merchant_cache (<[u := default_profile u]> (_merchant_cache (self w)))
       (log (well_known_request u w) (with_client w))).
Proof.
  intros Hm Ht Hs Hj Hu Hme.
  rewrite (discover_miss transport u w Hm). cbv zeta. rewrite Ht, Hs, Hj. simpl.
  unfold parse_profile. simpl. unfold dict_get. rewrite Hu, Hme. reflexivity.
Qed.

(** X13: a capability entry without a [name] makes [discover] raise an
    exception that is no [UCPError], after the wire call, and nothing is
    cached, whatever else the response holds. *)
Theorem discover_capability_without_name (u : string) (w : World) (resp : Response)
    (d ucp : gmap string value) (cs : list value) :
  _merchant_cache (self w) !! u = None →
  transport (sent w) (well_known_request u w) = Responded resp →
  is_success resp = true →
  json resp = Some (VDict d) →
  d !! "ucp" = Some (VDict ucp) →
  ucp !! "capabilities" = Some (VList cs) →
  Exists (λ c, py_getitem c "name" = None) cs →
  discover transport u w
  = (Raise PythonError, log (well_known_request u w) (with_client w)).
Proof.
  intros Hm Ht Hs Hj Hu Hc Hex.
  rewrite (discover_miss transport u w Hm). cbv zeta. rewrite Ht, Hs, Hj. simpl.
  assert (Hp : parse_profile u (VDict d) = None); [|by rewrite Hp].
  assert (Hucp : dict_get d "ucp" (VDict ∅) = VDict ucp).
  { unfold dict_get. by rewrite Hu. }
  assert (Hcaps : dict_get ucp "capabilities" (VList []) = VList cs).
  { unfold dict_get. by rewrite Hc. }
  unfold parse_profile. simpl. rewrite !Hucp. simpl.
  destruct (dict_get d "merchant" (VDict ∅)); try done. simpl.
  rewrite Hcaps. simpl.
  rewrite (mapM_None_2 parse_capability cs); [done|].
  eapply Exists_impl; [exact Hex|]. intros c Hn. unfold parse_capability. by rewrite Hn.
Qed.

(** X14: the cache is keyed by the merchant URL as it was passed: after
    [discover] has cached a merchant under [u], a call for [u] with one more
    trailing slash, not cached before, goes to the wire again, for the very
    same well-known URL. *)
Theorem discover_trailing_slash_refetch (u : string) (w w1 : World)
    (p : MerchantProfile.t) :
  discover transport u w = (Ok p, w1) →
  _merchant_cache (self w) !! (u +:+ "/") = None →
  url (well_known_request (u +:+ "/") w1) = url (well_known_request u w)
  ∧ sent (snd (discover transport (u +:+ "/") w1))
    = well_known_request (u +:+ "/") w1 :: sent w1.
Proof.
  intros Hd Hn. split.
  { simpl. by rewrite rstrip_slash_append_slash. }
  assert (Hn1 : _merchant_cache (self w1) !! (u +:+ "/") = None).
  { destruct (discover_cases transport u w w1 (Ok p) Hd)
      as [(_ & _ & _ & ->)|(_ & _ & _ & [(e & [=] & _)|(? & ? & p' & _ & _ & _ & _ & _ & ->)])];
      [done|].
    rewrite lookup_insert_ne; [done|apply append_slash_ne]. }
  destruct (discover transport (u +:+ "/") w1) as [r w2] eqn:Hd2.
  destruct (discover_cases transport _ _ _ _ Hd2) as [(p' & Hc & _)|(_ & Hs & _)];
    [congruence|done].
Qed.

End MoreDiscovery.

Lemma discover_defaults_witness :
  fst (discover Samples.shop_empty_discovery Samples.shop_url Samples.w0)
  = Ok (default_profile Samples.shop_url).
Proof.
  rewrite (discover_defaults Samples.shop_empty_discovery Samples.shop_url Samples.w0
             {| status_code := 200; text := "{...}"; json := Some (VDict ∅) |} ∅);
    reflexivity.
Defined.

Lemma discover_capability_without_name_witness :
  fst (discover Samples.shop_nameless_capability Samples.shop_url Samples.w0)
  = Raise PythonError.
Proof.
  erewrite (discover_capability_without_name Samples.shop_nameless_capability
              Samples.shop_url Samples.w0 _ _ _
              [Samples.checkout_cap; Samples.nameless_cap]);
    [reflexivity|reflexivity|reflexivity|reflexivity|reflexivity|reflexivity
    |reflexivity|].
  apply Exists_cons_tl, Exists_cons_hd. reflexivity.
Defined.

Lemma discover_trailing_slash_refetch_witness :
  sent (snd (discover Samples.shop_only_discovery (Samples.shop_url +:+ "/")
               Samples.w_shop))
  = well_known_request (Samples.shop_url +:+ "/") Samples.w_shop :: sent Samples.w_shop.
Proof.
  refine (proj2 (discover_trailing_slash_refetch Samples.shop_only_discovery
                   Samples.shop_url Samples.w0 Samples.w_shop
                   (Samples.shop_profile [Samples.checkout_capability]) _ _));
    vm_compute; reflexivity.
Defined.

(** ** Where a session comes from *)

Section Provenance.

Context {datetime : Type}.
Variable fromisoformat : value → option datetime.
Variable now_isoformat : nat → string.
Variable transport : list Request → Request → Outcome.

Lemma parse_checkout_session_given data u hs w s w' :
  _parse_checkout_session fromisoformat now_isoformat data u hs w = (Ok s, w') →
  CheckoutSession.merchant_url s = u ∧ CheckoutSession.payment_handlers s = hs.
Proof.
  unfold _parse_checkout_session.
  repeat pure_step_inv.
  erewrite (bind_for_each_lift _ parse_line_item) by apply parse_line_item_run.
  repeat pure_step_inv.
  rewrite bind_now. pure_step_inv. rewrite bind_now. repeat pure_step_inv.
  by intros [= <- <-].
Qed.

Lemma discover_ok_cached u w m w1 :
  discover transport u w = (Ok m, w1) → _merchant_cache (self w1) !! u = Some m.
Proof.
  intros Hd.
  destruct (discover_cases transport u w w1 (Ok m) Hd)
    as [(p & Hc & [= <-] & ->)
       |(_ & _ & _ & [(e & [=] & _)|(? & ? & p & _ & _ & _ & _ & [= <-] & ->)])];
    [done|apply lookup_insert_eq].
Qed.

(** X15: a session [create_checkout] or [update_checkout] returns carries
    the merchant URL the caller gave and the payment handlers of the merchant
    profile cached for that URL, not anything of the response. *)
Theorem session_merchant_and_handlers (u session_id : string) (line_items : value)
    (kwargs : gmap string value) (w w' : World) (s : CheckoutSession.t datetime) :
  create_checkout fromisoformat now_isoformat transport u line_items kwargs w
  = (Ok s, w')
  ∨ (kwargs !! "merchant_url" = Some (VStr u)
     ∧ update_checkout fromisoformat now_isoformat transport session_id kwargs w
       = (Ok s, w')) →
  CheckoutSession.merchant_url s = u
  ∧ ∃ m, _merchant_cache (self w') !! u = Some m
         ∧ CheckoutSession.payment_handlers s = MerchantProfile.payment_handlers m.
Proof.
  intros [H|[Hk H]].
  - destruct (discover transport u w) as [[m|e] w1] eqn:Hd.
    2:{ unfold create_checkout in H. unfold bind at 1 in H. by rewrite Hd in H. }
    destruct (has_checkout m) eqn:Hc.
    2:{ unfold create_checkout in H. unfold bind at 1 in H. rewrite Hd in H.
        fold (has_checkout m) in H. by rewrite Hc in H. }
    destruct (MerchantProfile.rest_endpoint m) as [| | |ep| |] eqn:He.
    4:{ rewrite (create_checkout_run fromisoformat now_isoformat transport
                   u ep line_items kwargs w w1 m Hd Hc He) in H.
        cbv zeta in H.
        destruct (transport (sent w1) _) as [resp|msg]; [|done].
        destruct (is_success resp); [|done].
        destruct (json resp) as [data|]; [|done].
        pose proof (parse_checkout_session_given _ _ _ _ _ _ H) as [Hu Hh].
        apply parse_checkout_session_frame in H as [Hs _].
        split; [done|]. exists m. split; [|done].
        rewrite Hs. simpl. by apply discover_ok_cached in Hd. }
    all: unfold create_checkout in H; unfold bind at 1 in H; rewrite Hd in H;
      fold (has_checkout m) in H; rewrite Hc in H; simpl in H;
      unfold bind at 1 in H; rewrite get_client_eq in H; rewrite He in H;
      by rewrite bind_lift in H.
  - assert (Hu : u ≠ "").
    { intros ->. unfold update_checkout in H. unfold bind at 1 in H.
      rewrite get_client_eq in H. by rewrite Hk in H. }
    destruct (discover transport u (with_client w)) as [[m|e] w1] eqn:Hd.
    2:{ unfold update_checkout in H. unfold bind at 1 in H.
        rewrite get_client_eq in H. rewrite Hk in H. simpl in H.
        destruct (String.eqb_spec u "") as [|_]; [done|]. simpl in H.
        unfold bind at 1 in H. unfold bind at 1 in H. by rewrite Hd in H. }
    destruct (MerchantProfile.rest_endpoint m) as [| | |ep| |] eqn:He.
    4:{ rewrite (update_checkout_run fromisoformat now_isoformat transport
                   session_id u ep kwargs w w1 m Hk Hu Hd He) in H.
        cbv zeta in H.
        destruct (transport (sent w1) _) as [resp|msg]; [|done].
        destruct (is_success resp); [|done].
        destruct (json resp) as [data|]; [|done].
        pose proof (parse_checkout_session_given _ _ _ _ _ _ H) as [Hu' Hh].
        apply parse_checkout_session_frame in H as [Hs _].
        split; [done|]. exists m. split; [|done].
        rewrite Hs. simpl. by apply discover_ok_cached in Hd. }
    all: unfold update_checkout in H; unfold bind at 1 in H;
      rewrite get_client_eq in H; rewrite Hk in H; simpl in H;
      (destruct (String.eqb_spec u "") as [|_]; [done|]); simpl in H;
      unfold bind at 1 in H; unfold bind at 1 in H; rewrite Hd in H;
      unfold ret at 1 in H; rewrite He in H; by rewrite bind_lift in H.
Qed.

End Provenance.

Lemma session_merchant_and_handlers_witness :
  ∃ s w',
    create_checkout Samples.iso Samples.clock Samples.shop_of_three
      Samples.shop_url (VList []) ∅ Samples.w0 = (Ok s, w')
    ∧ CheckoutSession.merchant_url s = Samples.shop_url
    ∧ ∃ m, _merchant_cache (self w') !! Samples.shop_url = Some m
           ∧ CheckoutSession.payment_handlers s = MerchantProfile.payment_handlers m.
Proof.
  eexists _, _. split; [vm_compute; reflexivity|].
  eapply (session_merchant_and_handlers Samples.iso Samples.clock Samples.shop_of_three
            Samples.shop_url "" (VList []) ∅ Samples.w0).
  left. vm_compute. reflexivity.
Defined.

(** ** More of negotiation *)

Lemma str_set_ext (xs ys : list value) :
  forallb hashable xs = true → forallb hashable ys = true →
  (∀ x, VStr x ∈ xs ↔ VStr x ∈ ys) →
  str_set xs = str_set ys.
Proof.
  intros Hx Hy H. unfold str_set. rewrite Hx, Hy. f_equal.
  apply set_eq. intros x. rewrite !elem_of_list_to_set, !list_elem_of_omap.
  split; intros (v & Hv & Hs); destruct v; simplify_eq/=;
    eexists; (split; [by apply H|done]).
Qed.

(** X16: [negotiate] looks at the names of the capabilities and the types
    of the payment handlers only: two profiles with the same names and the
    same types negotiate the same capabilities and the same handlers,
    whatever their versions, ids, configs, order and repetitions; the two
    results may list them in different orders. *)
Theorem negotiate_names_only (list_of_set : list value → gset string → list string)
    (mp mp' : MerchantProfile.t) (w : World) :
  list_lists_set list_of_set →
  forallb hashable (Capability.name <$> MerchantProfile.capabilities mp) = true →
  forallb hashable (Capability.name <$> MerchantProfile.capabilities mp') = true →
  forallb hashable (PaymentHandler.type <$> MerchantProfile.payment_handlers mp) = true →
  forallb hashable (PaymentHandler.type <$> MerchantProfile.payment_handlers mp') = true →
  (∀ x, VStr x ∈ Capability.name <$> MerchantProfile.capabilities mp
        ↔ VStr x ∈ Capability.name <$> MerchantProfile.capabilities mp') →
  (∀ x, VStr x ∈ PaymentHandler.type <$> MerchantProfile.payment_handlers mp
        ↔ VStr x ∈ PaymentHandler.type <$> MerchantProfile.payment_handlers mp') →
  ∃ caps hs caps' hs',
    negotiate list_of_set mp w
    = (Ok (VDict (<["capabilities" := VList (VStr <$> caps)]>
                    (<["payment_handlers" := VList (VStr <$> hs)]> ∅))), w)
    ∧ negotiate list_of_set mp' w
      = (Ok (VDict (<["capabilities" := VList (VStr <$> caps')]>
                      (<["payment_handlers" := VList (VStr <$> hs')]> ∅))), w)
    ∧ caps ≡ₚ caps' ∧ hs ≡ₚ hs'.
Proof.
  intros Hl Hc Hc' Hh Hh' Hcs Hhs. unfold list_lists_set in Hl.
  unfold negotiate. cbv zeta.
  rewrite <- (str_set_ext _ _ Hc Hc' Hcs), <- (str_set_ext _ _ Hh Hh' Hhs).
  destruct (str_set (Capability.name <$> MerchantProfile.capabilities mp))
    as [mc|] eqn:Emc; [|unfold str_set in Emc; by rewrite Hc in Emc].
  destruct (str_set (PaymentHandler.type <$> MerchantProfile.payment_handlers mp))
    as [mh|] eqn:Emh; [|unfold str_set in Emh; by rewrite Hh in Emh].
  eexists _, _, _, _. split; [reflexivity|]. split; [reflexivity|].
  split; by rewrite !Hl.
Qed.

Lemma negotiate_names_only_witness :
  ∃ caps hs caps' hs',
    negotiate Samples.by_parity Samples.tidy_profile Samples.w0
    = (Ok (VDict (<["capabilities" := VList (VStr <$> caps)]>
                    (<["payment_handlers" := VList (VStr <$> hs)]> ∅))), Samples.w0)
    ∧ negotiate Samples.by_parity Samples.untidy_profile Samples.w0
      = (Ok (VDict (<["capabilities" := VList (VStr <$> caps')]>
                      (<["payment_handlers" := VList (VStr <$> hs')]> ∅))), Samples.w0)
    ∧ caps ≡ₚ caps' ∧ hs ≡ₚ hs'.
Proof.
  apply (negotiate_names_only Samples.by_parity Samples.tidy_profile
           Samples.untidy_profile Samples.w0); try reflexivity.
  - intros xs s. unfold Samples.by_parity.
    destruct (Nat.even (length xs)); [reflexivity|apply reverse_Permutation].
  - intros x. simpl. rewrite !elem_of_cons, !elem_of_nil. tauto.
  - intros x. simpl. rewrite !elem_of_cons, !elem_of_nil. tauto.
Defined.

(** With [Samples.by_parity] the two profiles list the two handlers in
    opposite orders. *)
Example negotiate_orders_differ :
  ∃ a b,
    a ≠ b
    ∧ fst (negotiate Samples.by_parity Samples.tidy_profile Samples.w0)
      = Ok (VDict (<["capabilities" := VList [VStr "dev.ucp.shopping.checkout"] ]>
                     (<["payment_handlers" := VList [VStr a; VStr b] ]> ∅)))
    ∧ fst (negotiate Samples.by_parity Samples.untidy_profile Samples.w0)
      = Ok (VDict (<["capabilities" := VList [VStr "dev.ucp.shopping.checkout"] ]>
                     (<["payment_handlers" := VList [VStr b; VStr a] ]> ∅))).
Proof.
  eexists _, _. split; [|split; vm_compute; reflexivity]. discriminate.
Qed.

(** ** The handlers of [main.py] *)

Lemma bind_lift_world {A B} (m : M A) (f : A → option B) (w : World) :
  snd (bind m (λ a, lift (f a)) w) = snd (m w).
Proof.
  unfold bind. destruct (m w) as [[a|e] w']; [|done].
  simpl. by destruct (f a).
Qed.

Section MainHandlers.

Context {datetime DiscoverResponse CheckoutResponse OrderResponse : Type}.
Variable fromisoformat : value → option datetime.
Variable now_isoformat : nat → string.
Variable transport : list Request → Request → Outcome.
Variable mkDiscoverResponse : value → list value → list value → option DiscoverResponse.
Variable mkCheckoutResponse : value → value → value → value → option CheckoutResponse.
Variable mkOrderResponse : value → value → value → option OrderResponse.

(** X17: the handler of [/checkout/complete] passes no [merchant_url]: for
    every request it raises the [invalid_request] error of
    [complete_checkout] and issues no wire call. *)
Theorem complete_handler_always_fails (request : Main.CompleteCheckoutRequest)
    (w : World) :
  Main.complete_checkout transport mkOrderResponse request w
  = (Raise (UCPError_ (VStr "invalid_request")
              (VStr "merchant_url required for completion") (VDict ∅)),
     with_client w)
  ∧ sent (with_client w) = sent w.
Proof.
  split; [|done]. unfold Main.complete_checkout. unfold bind at 1.
  unfold complete_checkout. unfold bind at 1. by rewrite get_client_eq.
Qed.

(** X18: for a merchant with the checkout capability and a [str] endpoint,
    the handler of [/checkout/create] posts a body with the one member
    [line_items]: the items of the request in their order, each with its
    [sku], its [quantity] as it is and its [price_cents], [None] when it has
    none. *)
Theorem create_handler_body (request : Main.CreateCheckoutRequest) (ep : string)
    (w w1 : World) (m : MerchantProfile.t) :
  discover transport (Main.merchant_url request) w = (Ok m, w1) →
  has_checkout m = true →
  MerchantProfile.rest_endpoint m = VStr ep →
  sent (snd (Main.create_checkout fromisoformat now_isoformat transport
               mkCheckoutResponse request w))
  = wire_request POST (rstrip_slash ep +:+ "/checkout") w1
      (Some (VDict {["line_items" :=
                       VList ((λ item,
                                 VDict (<["sku" := VStr (Main.sku item)]>
                                          (<["quantity" := VInt (Main.quantity item)]>
                                             {["price_cents" :=
                                                 from_option VInt VNone
                                                   (Main.price_cents item)]})))
                              <$> Main.line_items request)]}))
    :: sent w1.
Proof.
  intros Hd Hc He. unfold Main.create_checkout. rewrite bind_lift_world.
  rewrite (create_checkout_run fromisoformat now_isoformat transport
             _ ep _ ∅ w w1 m Hd Hc He). cbv zeta.
  rewrite (left_id_L ∅ (∪)).
  destruct (transport (sent w1) _) as [resp|msg]; [|done].
  destruct (is_success resp); [|done].
  destruct (json resp) as [data|]; [|done].
  destruct (_parse_checkout_session _ _ _ _ _ _) as [r' w'] eqn:Hp.
  simpl. by apply parse_checkout_session_frame in Hp as [_ ->].
Qed.

End MainHandlers.

Lemma create_handler_body_witness :
  sent (snd (Main.create_checkout Samples.iso Samples.clock Samples.shop_of_three
               (λ _ _ _ _, Some tt)
               (Main.mkCreateCheckoutRequest Samples.shop_url
                  [Main.mkLineItem "mug" 0 None])
               Samples.w0))
  = wire_request POST (rstrip_slash "https://shop.example/api/" +:+ "/checkout")
      Samples.w_shop
      (Some (VDict {["line_items" :=
                       VList ((λ item,
                                 VDict (<["sku" := VStr (Main.sku item)]>
                                          (<["quantity" := VInt (Main.quantity item)]>
                                             {["price_cents" :=
                                                 from_option VInt VNone
                                                   (Main.price_cents item)]})))
                              <$> [Main.mkLineItem "mug" 0 None])]}))
    :: sent Samples.w_shop.
Proof.
  apply (create_handler_body Samples.iso Samples.clock Samples.shop_of_three
           (λ _ _ _ _, Some tt)
           (Main.mkCreateCheckoutRequest Samples.shop_url [Main.mkLineItem "mug" 0 None])
           "https://shop.example/api/" Samples.w0 Samples.w_shop
           (Samples.shop_profile [Samples.checkout_capability]));
    vm_compute; reflexivity.
Defined.

(** ** What [update_checkout] and [complete_checkout] send *)

Lemma forwards_update (kwargs : gmap string value) (u : string) (w : World) :
  forwards PATCH kwargs ∅
    (wire_request PATCH u w (Some (VDict (delete "merchant_url" kwargs)))).
Proof.
  split; [done|]. eexists. split; [done|]. split; [apply lookup_delete_eq|].
  intros k Hk. by rewrite lookup_delete_ne, (right_id_L ∅ (∪)).
Qed.

Lemma forwards_complete (kwargs : gmap string value) (payment_data : value)
    (u : string) (w : World) :
  forwards POST kwargs {["payment" := payment_data]}
    (wire_request POST u w
       (Some (VDict (delete "merchant_url" kwargs ∪ {["payment" := payment_data]})))).
Proof.
  split; [done|]. eexists. split; [done|]. split.
  - apply lookup_union_None. split; [apply lookup_delete_eq|].
    by apply lookup_singleton_ne.
  - intros k Hk. by rewrite !lookup_union, lookup_delete_ne.
Qed.

Section Forwarding.

Context {datetime : Type}.
Variable fromisoformat : value → option datetime.
Variable now_isoformat : nat → string.
Variable transport : list Request → Request → Outcome.

(** What [discover] adds to the log is nothing or one discovery GET. *)
Lemma discover_adds (u : string) (w w1 : World) (r : Result MerchantProfile.t)
    (P : Request → Prop) :
  discover transport u w = (r, w1) →
  ∃ new, sent w1 = new ++ sent w ∧ Forall (λ q, discovery_get q ∨ P q) new.
Proof.
  intros H. destruct (discover_cases transport u w w1 r H)
    as [(_ & _ & _ & ->)|(_ & Hs & _)].
  - by exists [].
  - exists [well_known_request u w]. split; [done|].
    constructor; [by left|constructor].
Qed.

(** C10: every request [update_checkout] and [complete_checkout] add to
    the log is the discovery GET or their own PATCH, POST for
    [complete_checkout], whose body has no [merchant_url] key and holds
    every other keyword argument as it was given, and beyond these only
    [payment] for [complete_checkout]; and with a non-empty [str] for
    [merchant_url], a merchant that is discovered and a [str] endpoint, that
    request is sent: it is the latest of the log. *)
Theorem checkout_forwards_kwargs (session_id : string) (payment_data : value)
    (kwargs : gmap string value) (w : World) :
  (∃ new,
     sent (snd (update_checkout fromisoformat now_isoformat transport
                  session_id kwargs w)) = new ++ sent w
     ∧ Forall (λ q, discovery_get q ∨ forwards PATCH kwargs ∅ q) new)
  ∧ (∃ new,
       sent (snd (complete_checkout transport session_id payment_data kwargs w))
       = new ++ sent w
       ∧ Forall (λ q, discovery_get q
                      ∨ forwards POST kwargs {["payment" := payment_data]} q) new)
  ∧ (∀ u m w1 ep,
       kwargs !! "merchant_url" = Some (VStr u) → u ≠ "" →
       discover transport u (with_client w) = (Ok m, w1) →
       MerchantProfile.rest_endpoint m = VStr ep →
       (∃ q,
          sent (snd (update_checkout fromisoformat now_isoformat transport
                       session_id kwargs w)) = q :: sent w1
          ∧ url q = rstrip_slash ep +:+ "/checkout/" +:+ session_id
          ∧ forwards PATCH kwargs ∅ q)
       ∧ (∃ q,
            sent (snd (complete_checkout transport session_id payment_data kwargs w))
            = q :: sent w1
            ∧ url q = rstrip_slash ep +:+ "/checkout/" +:+ session_id +:+ "/complete"
            ∧ forwards POST kwargs {["payment" := payment_data]} q)).
Proof.
  split; [|split].
  - destruct (update_checkout_world fromisoformat now_isoformat transport
                session_id kwargs w) as [->|(u & r & w1 & Hk & Hd & Hw)].
    { by exists []. }
    destruct (discover_adds u _ _ r (forwards PATCH kwargs ∅) Hd) as (new & Hs & Hnew).
    change (sent (with_client w)) with (sent w) in Hs.
    destruct Hw as [->|(m & ep & _ & _ & _ & Hl)].
    + by exists new.
    + eexists (_ :: new). rewrite Hl, Hs. split; [done|].
      constructor; [|done]. right. apply forwards_update.
  - destruct (complete_checkout_world transport session_id payment_data kwargs w)
      as [->|(u & r & w1 & Hk & Hd & Hw)].
    { by exists []. }
    destruct (discover_adds u _ _ r
                (forwards POST kwargs {["payment" := payment_data]}) Hd)
      as (new & Hs & Hnew).
    change (sent (with_client w)) with (sent w) in Hs.
    destruct Hw as [->|(m & ep & _ & _ & ->)].
    + by exists new.
    + eexists (_ :: new). simpl. rewrite Hs. split; [done|].
      constructor; [|done]. right. apply forwards_complete.
  - intros u m w1 ep Hk Hu Hd He. split.
    + eexists. split; [|split; [|apply forwards_update]]; [|done].
      rewrite (update_checkout_run fromisoformat now_isoformat transport
                 session_id u ep kwargs w w1 m Hk Hu Hd He). cbv zeta.
      destruct (transport (sent w1) _) as [resp|msg]; [|done].
      destruct (is_success resp); [|done].
      destruct (json resp) as [data|]; [|done].
      destruct (_parse_checkout_session _ _ _ _ _ _) as [r' w'] eqn:Hp.
      simpl. by apply parse_checkout_session_frame in Hp as [_ ->].
    + eexists. split; [|split; [|apply forwards_complete]]; [|done].
      rewrite (complete_checkout_run transport session_id u ep payment_data kwargs
                 w w1 m Hk Hu Hd He). cbv zeta.
      destruct (transport (sent w1) _) as [resp|msg]; [|done].
      destruct (is_success resp); [|done].
      destruct (json resp) as [data|]; [|done].
      destruct (parse_order data _) as [r' w'] eqn:Hp.
      by apply parse_order_frame in Hp as ->.
Qed.

End Forwarding.

Lemma checkout_forwards_kwargs_witness :
  ∃ q,
    sent (snd (update_checkout Samples.iso Samples.clock Samples.shop_mismatch_on_call
                 "sess-1" Samples.gift_kwargs Samples.w0))
    = q :: sent Samples.w_shop
    ∧ url q = rstrip_slash "https://shop.example/api/" +:+ "/checkout/" +:+ "sess-1"
    ∧ forwards PATCH Samples.gift_kwargs ∅ q.
Proof.
  refine (proj1 (proj2 (proj2 (checkout_forwards_kwargs Samples.iso Samples.clock
                                 Samples.shop_mismatch_on_call "sess-1" VNone
                                 Samples.gift_kwargs Samples.w0))
                   Samples.shop_url (Samples.shop_profile [Samples.checkout_capability])
                   Samples.w_shop "https://shop.example/api/" _ _ _ _));
    [reflexivity|discriminate|vm_compute; reflexivity|reflexivity].
Defined.

(** The body of that PATCH holds the two other keyword arguments and
    nothing else. *)
Example update_checkout_body_sample :
  (λ q, (method q, url q, body q))
    <$> sent (snd (update_checkout Samples.iso Samples.clock
                     Samples.shop_mismatch_on_call "sess-1" Samples.gift_kwargs
                     Samples.w0))
  = [(PATCH, "https://shop.example/api/checkout/sess-1",
      Some (VDict (<["note" := VStr "gift"]> {["shipping" := VStr "express"]})));
     (GET, "https://shop.example/.well-known/ucp", None)].
Proof. vm_compute. reflexivity. Qed.
